(** * A shallow embedding of the recipe crawler

    The development follows the Python modules of the crawler pipeline:
    [sitemap_parser] (sitemap resolver and URL collector),
    [crawlability_checker] (robots.txt summary) and [content_extractor]
    (page extractor and batch orchestrator).

    Python values are represented as follows.
    - [str] is [string]; a character is a code point below 256, which is
      enough for every marker, separator and keyword the crawler tests for.
    - [int] is [Z]; list lengths are [nat] and are injected into [Z] where
      the program compares them with an [int].
    - [dict] used as a mapping is a [gmap]; [Counter], whose iteration order
      the program observes, is an insertion-ordered association list.
    - an exception is the [Raised] case of [outcome]; effects (HTTP requests,
      browser sessions, the file system, standard output) are threaded through
      an explicit [world]. *)

From Stdlib Require Import ZArith Ascii String.
From stdpp Require Import base tactics option list sorting gmap strings.

Local Open Scope Z_scope.

(** ** Python string primitives *)
Module PyStr.

(** [c.isspace()] for a code point below 256. *)
Definition isspace (c : ascii) : bool :=
  let n := N_of_ascii c in
  ((9 <=? n) && (n <=? 13) || (28 <=? n) && (n <=? 32)
   || (n =? 133) || (n =? 160))%N.

Definition isupper (c : ascii) : bool :=
  let n := N_of_ascii c in
  ((65 <=? n) && (n <=? 90)
   || (192 <=? n) && (n <=? 222) && negb (n =? 215))%N.

(** [str.isalnum] on one code point: letters, decimal digits and the
    numeric signs of the Latin-1 block. *)
Definition isalnum (c : ascii) : bool :=
  let n := N_of_ascii c in
  ((48 <=? n) && (n <=? 57) || (65 <=? n) && (n <=? 90)
   || (97 <=? n) && (n <=? 122)
   || (n =? 170) || (n =? 178) || (n =? 179) || (n =? 181)
   || (n =? 185) || (n =? 186) || (188 <=? n) && (n <=? 190)
   || (192 <=? n) && (n <=? 255) && negb (n =? 215) && negb (n =? 247))%N.

(** The class [\w] of the [re] module on [str] patterns. *)
Definition isword (c : ascii) : bool :=
  isalnum c || Ascii.eqb c "_"%char.

Definition lower_char (c : ascii) : ascii :=
  if isupper c then ascii_of_N (N_of_ascii c + 32) else c.

(** [s.lower()] *)
Fixpoint lower (s : string) : string :=
  match s with
  | EmptyString => EmptyString
  | String c t => String (lower_char c) (lower t)
  end.

(** [s.startswith(p)] *)
Fixpoint startswith (s p : string) {struct p} : bool :=
  match p, s with
  | EmptyString, _ => true
  | String _ _, EmptyString => false
  | String a p', String b s' => Ascii.eqb a b && startswith s' p'
  end.

(** [p in s] *)
Fixpoint contains (p s : string) : bool :=
  startswith s p ||
  match s with
  | EmptyString => false
  | String _ t => contains p t
  end.

(** [s.endswith(p)] *)
Fixpoint endswith (s p : string) : bool :=
  String.eqb s p ||
  match s with
  | EmptyString => false
  | String _ t => endswith t p
  end.

(** [s.endswith((p1, ..., pn))] *)
Definition endswith_any (s : string) (ps : list string) : bool :=
  existsb (endswith s) ps.

(** [s.lstrip()], [s.rstrip()] and [s.strip()] *)
Fixpoint lstrip (s : string) : string :=
  match s with
  | EmptyString => EmptyString
  | String c t => if isspace c then lstrip t else s
  end.

Fixpoint rstrip (s : string) : string :=
  match s with
  | EmptyString => EmptyString
  | String c t =>
      match rstrip t with
      | EmptyString => if isspace c then EmptyString else String c EmptyString
      | t' => String c t'
      end
  end.

Definition strip (s : string) : string := rstrip (lstrip s).

(** [s.split(sep)] for a one-character separator: every occurrence of the
    separator ends a field, so the result is never empty. *)
Fixpoint split (sep : ascii) (s : string) : list string :=
  match s with
  | EmptyString => [EmptyString]
  | String c t =>
      if Ascii.eqb c sep then EmptyString :: split sep t
      else match split sep t with
           | f :: fs => String c f :: fs
           | [] => [String c EmptyString]
           end
  end.

(** [s.split(sep, 1)]: at most one cut, at the first separator. *)
Fixpoint split1 (sep : ascii) (s : string) : list string :=
  match s with
  | EmptyString => [EmptyString]
  | String c t =>
      if Ascii.eqb c sep then [EmptyString; t]
      else match split1 sep t with
           | f :: fs => String c f :: fs
           | [] => [String c EmptyString]
           end
  end.

(** [sep.join(l)] *)
Fixpoint join (sep : string) (l : list string) : string :=
  match l with
  | [] => EmptyString
  | [x] => x
  | x :: rest => x +:+ sep +:+ join sep rest
  end.

(** [s.splitlines()]: a line ends at LF, CR, CR LF, VT, FF, FS, GS, RS or
    NEL; the line terminators are dropped and a final terminator opens
    no further line. *)
Definition islinebreak (c : ascii) : bool :=
  let n := N_of_ascii c in
  ((10 <=? n) && (n <=? 13) || (28 <=? n) && (n <=? 30) || (n =? 133))%N.

Fixpoint splitlines_go (cur : string) (s : string) : list string :=
  match s with
  | EmptyString =>
      match cur with EmptyString => [] | _ => [String.rev cur] end
  | String c t =>
      if islinebreak c then
        String.rev cur ::
          match c, t with
          | "013"%char, String "010"%char t' => splitlines_go EmptyString t'
          | _, _ => splitlines_go EmptyString t
          end
      else splitlines_go (String c cur) t
  end.

End PyStr.

(** ** Parsed markup, as BeautifulSoup presents it *)
Module Soup.

(** A parsed document is a forest of tags and text nodes.  A tag carries
    its name, the tokens of its [class] attribute (which BeautifulSoup
    stores as a list, empty when the attribute is absent), its other
    attributes and its contents. *)
#[warnings="-register-all"] Inductive node :=
| NavigableString (s : string)
| Tag (name : string) (classes : list string)
      (attrs : gmap string string) (contents : list node).

Definition soup := list node.

(** Every text node below a node, in document order. *)
Fixpoint strings (n : node) : list string :=
  match n with
  | NavigableString s => [s]
  | Tag _ _ _ kids => flat_map strings kids
  end.

(** [tag.text] *)
Definition text (n : node) : string := PyStr.join "" (strings n).

Definition nonempty (s : string) : bool :=
  match s with EmptyString => false | _ => true end.

(** [tag.get_text(strip=True)]: every text node is stripped, the ones left
    empty are skipped and the rest are concatenated. *)
Definition get_text_strip (n : node) : string :=
  PyStr.join "" (List.filter nonempty (map PyStr.strip (strings n))).

(** Every tag of the forest in document order, with its ancestors
    (nearest first). *)
Fixpoint walk (anc : list node) (n : node) : list (list node * node) :=
  match n with
  | NavigableString _ => []
  | Tag _ _ _ kids => (anc, n) :: flat_map (walk (n :: anc)) kids
  end.

Definition tags (doc : soup) : list (list node * node) :=
  flat_map (walk []) doc.

Definition name_of (n : node) : option string :=
  match n with NavigableString _ => None | Tag nm _ _ _ => Some nm end.

(** [tag.get("class", [])] *)
Definition get_class (n : node) : list string :=
  match n with NavigableString _ => [] | Tag _ cls _ _ => cls end.

(** [tag.get(attr)]; [tag.has_attr(attr)] holds when it is not [None]. *)
Definition get (n : node) (attr : string) : option string :=
  match n with NavigableString _ => None | Tag _ _ a _ => a !! attr end.

Definition mem (x : string) (l : list string) : bool :=
  existsb (String.eqb x) l.

(** [soup.find_all(name)] and [soup.find(name)] *)
Definition find_all (name : string) (doc : soup) : list node :=
  List.filter (fun n => bool_decide (name_of n = Some name))
              (map snd (tags doc)).

Definition find (name : string) (doc : soup) : option node :=
  head (find_all name doc).

(** A compound selector [tag], [tag.class] or [tag[attr=value]], and a
    selector as a chain of compounds joined by the descendant
    combinator. *)
Record compound := Compound {
  sel_tag : string;
  sel_class : option string;
  sel_attr : option (string * string)
}.

Definition matches (c : compound) (n : node) : bool :=
  bool_decide (name_of n = Some (sel_tag c))
  && match sel_class c with
     | None => true
     | Some k => mem k (get_class n)
     end
  && match sel_attr c with
     | None => true
     | Some (a, v) => bool_decide (get n a = Some v)
     end.

(** The compounds left of the rightmost one, given nearest first, are
    matched against the ancestors going outwards. *)
Fixpoint under (cs : list compound) (anc : list node) : bool :=
  match cs with
  | [] => true
  | c :: cs' =>
      (fix go (anc : list node) : bool :=
         match anc with
         | [] => false
         | a :: anc' => if matches c a then under cs' anc' else go anc'
         end) anc
  end.

Definition selected (sel : list compound) (e : list node * node) : bool :=
  match rev sel with
  | [] => false
  | c :: cs => matches c (snd e) && under cs (fst e)
  end.

(** [soup.select(sel)] and [soup.select_one(sel)] *)
Definition select (sel : list compound) (doc : soup) : list node :=
  map snd (List.filter (selected sel) (tags doc)).

Definition select_one (sel : list compound) (doc : soup) : option node :=
  head (select sel doc).

Definition tag_ (t : string) : compound := Compound t None None.
Definition tag_class (t k : string) : compound := Compound t (Some k) None.
Definition tag_attr (t a v : string) : compound :=
  Compound t None (Some (a, v)).

End Soup.

(** ** Recipe records *)
Record recipe := Recipe {
  url : string;
  title : string;
  description : string;
  image_url : string;
  ingredients : list string;
  instructions : list string;
  rating : string;
  prep_time : string;
  cook_time : string;
  total_time : string;
  nutrition : gmap string string;
  categories : list string;
  keywords : list string
}.

(** ** Outcomes, the world and the effect monad *)
Inductive exn :=
| HTTPError (status : Z)
| IndexError
| FileNotFoundError (path : string)
| FileExistsError (path : string)
| IsADirectoryError (path : string)
| NotADirectoryError
| WebDriverException (page : string).

Inductive outcome (A : Type) :=
| Returned (a : A)
| Raised (e : exn).
Arguments Returned {A} a.
Arguments Raised {A} e.

(** What the program does to its surroundings, in order. *)
Inductive event :=
| Request (target : string)
| Navigate (page : string)
| Progress (idx limit : Z) (page : string)
| Saved (count : Z) (path : string).

Record world := World {
  trace : list event;
  dirs : gset string;
  files : gmap string (list recipe)
}.

Definition M (A : Type) : Type := world -> outcome A * world.

Definition ret {A} (a : A) : M A := fun w => (Returned a, w).

Definition raise {A} (e : exn) : M A := fun w => (Raised e, w).

Definition bind {A B} (c : M A) (k : A -> M B) : M B :=
  fun w =>
    match c w with
    | (Returned a, w') => k a w'
    | (Raised e, w') => (Raised e, w')
    end.

Notation "'let!' x ':=' c 'in' k" := (bind c (fun x => k))
  (at level 10, x name, c at level 100, k at level 200).
Notation "c ';;' k" := (bind c (fun _ => k))
  (at level 100, k at level 200, right associativity).

Definition emit (e : event) : M unit :=
  fun w => (Returned tt, World (trace w ++ [e]) (dirs w) (files w)).

Definition lift {A} (o : outcome A) : M A := fun w => (o, w).

(** ** Python list and [Counter] primitives *)
Module PyList.

(** [l[:n]]: a negative bound counts from the end. *)
Definition slice_to {A} (l : list A) (n : Z) : list A :=
  if 0 <=? n then take (Z.to_nat n) l
  else take (length l - Z.to_nat (- n))%nat l.

(** [len(l)] *)
Definition len {A} (l : list A) : Z := Z.of_nat (length l).

(** [l[i]] for a non-negative index *)
Definition getitem {A} (l : list A) (i : nat) : outcome A :=
  match l !! i with
  | Some x => Returned x
  | None => Raised IndexError
  end.

(** [c[w] += 1] on an insertion-ordered mapping: a known key keeps its
    place, a new key goes last. *)
Fixpoint incr (w : string) (c : list (string * nat)) : list (string * nat) :=
  match c with
  | [] => [(w, 1%nat)]
  | (k, n) :: rest =>
      if String.eqb k w then (k, S n) :: rest else (k, n) :: incr w rest
  end.

(** [Counter(l)] *)
Definition Counter (l : list string) : list (string * nat) :=
  fold_left (fun c w => incr w c) l [].

(** [sorted(items, key=itemgetter(1), reverse=True)]: the sort is stable,
    so an item goes behind the items counted strictly more often and before
    every other item that followed it. *)
Fixpoint place (x : string * nat) (l : list (string * nat))
  : list (string * nat) :=
  match l with
  | [] => [x]
  | y :: l' => if (snd x <? snd y)%nat then y :: place x l' else x :: y :: l'
  end.

Definition sorted_desc (c : list (string * nat)) : list (string * nat) :=
  foldr place [] c.

(** [c.most_common(n)] *)
Definition most_common (n : nat) (c : list (string * nat))
  : list (string * nat) :=
  take n (sorted_desc c).

End PyList.

(** ** Paths and the file system *)
Module Os.

Definition sep : ascii := "/"%char.

(** [p[:p.rfind('/') + 1]] *)
Fixpoint upto_last_sep (p : string) : string :=
  match p with
  | EmptyString => EmptyString
  | String c t =>
      match upto_last_sep t with
      | EmptyString =>
          if Ascii.eqb c sep then String c EmptyString else EmptyString
      | h => String c h
      end
  end.

(** [s.rstrip('/')] *)
Fixpoint rstrip_sep (s : string) : string :=
  match s with
  | EmptyString => EmptyString
  | String c t =>
      match rstrip_sep t with
      | EmptyString =>
          if Ascii.eqb c sep then EmptyString else String c EmptyString
      | t' => String c t'
      end
  end.

(** [os.path.dirname(p)]: the head is cut behind the last separator and
    loses its trailing separators unless it consists of separators only. *)
Definition dirname (p : string) : string :=
  let head := upto_last_sep p in
  match rstrip_sep head with
  | EmptyString => head
  | h => h
  end.

(** The directories above a path: the [dirname] of every prefix that ends
    in a separator. *)
Fixpoint parents_go (pre p : string) : list string :=
  match p with
  | EmptyString => []
  | String c t =>
      let pre' := pre +:+ String c EmptyString in
      (if Ascii.eqb c sep then [dirname pre'] else [])
      ++ parents_go pre' t
  end.

Definition parents (p : string) : list string := parents_go EmptyString p.

(** [os.makedirs(name, exist_ok=True)]: the empty path names no directory
    and is refused; a regular file above the directory, or a regular file
    of that name, is in the way; otherwise the directory and the
    directories above it exist afterwards. *)
Definition makedirs (name : string) : M unit :=
  fun w =>
    if String.eqb name EmptyString then (Raised (FileNotFoundError name), w)
    else if existsb (fun p => bool_decide (p ∈ dom (files w)))
                    (parents name) then
      (Raised NotADirectoryError, w)
    else if bool_decide (name ∈ dom (files w)) then
      (Raised (FileExistsError name), w)
    else
      (Returned tt,
       World (trace w) (dirs w ∪ list_to_set (name :: parents name))
             (files w)).

(** [with open(path, "w") as f: json.dump(data, f, ...)]: the file must
    have a name, must not be a directory and its directory must exist;
    the file then holds the serialised collection. *)
Definition dump (path : string) (data : list recipe) : M unit :=
  fun w =>
    if String.eqb path EmptyString then (Raised (FileNotFoundError path), w)
    else if PyStr.endswith path "/" || bool_decide (path ∈ dirs w) then
      (Raised (IsADirectoryError path), w)
    else if negb (String.eqb (dirname path) EmptyString)
            && negb (bool_decide (dirname path ∈ dirs w)) then
      (Raised (FileNotFoundError path), w)
    else (Returned tt, World (trace w) (dirs w) (<[path := data]> (files w))).

End Os.

(** ** The crawler *)

(** What [requests.get] hands back. *)
Record response := Response {
  status_code : Z;
  content : string
}.

(** [robots.txt] in summary. *)
Record summary := Summary {
  Allowed : list string;
  Disallowed : list string;
  Sitemaps : list string;
  Crawl_Delay : option string
}.

(** [analyze_robots_txt] returns either the one-key mapping
    [{"error": ...}] naming the status, or the summary. *)
Inductive robots_report :=
| FetchError (status : Z)
| Report (s : summary).

Section Crawler.

(** The surroundings the crawler depends on but does not implement: the web
    server behind [requests.get], the two BeautifulSoup parsers, and the
    scripted browser, which hands back the page source once the settle
    delay has passed or fails to load the page. *)
Variable http : string -> response.
Variable parse_xml : string -> Soup.soup.
Variable parse_html : string -> Soup.soup.
Variable page_source : string -> outcome string.

(** [requests.get(target, headers=...)] *)
Definition requests_get (target : string) : M response :=
  emit (Request target);; ret (http target).

(** [response.raise_for_status()]: statuses 400 to 599 raise. *)
Definition raise_for_status (r : response) : M unit :=
  if (400 <=? status_code r) && (status_code r <? 600)
  then raise (HTTPError (status_code r))
  else ret tt.

(** *** sitemap_parser.py *)

Definition INDEX_URL : string :=
  "https://www.tasteofhome.com/sitemap_index.xml".

Definition loc_texts (doc : Soup.soup) : list string :=
  map Soup.text (Soup.find_all "loc" doc).

Definition get_recipe_sitemap_links (index_url : string) : M (list string) :=
  let! response := requests_get index_url in
  raise_for_status response;;
  let soup := parse_xml (content response) in
  let all_sitemaps := loc_texts soup in
  let recipe_sitemaps :=
    List.filter (fun u => PyStr.contains "recipe-sitemap" u) all_sitemaps in
  ret recipe_sitemaps.

Definition extract_urls_from_sitemap (sitemap_url : string)
  : M (list string) :=
  let! response := requests_get sitemap_url in
  raise_for_status response;;
  let soup := parse_xml (content response) in
  ret (loc_texts soup).

Definition is_recipe_url (u : string) : bool :=
  PyStr.contains "/recipes/" u
  && negb (PyStr.endswith_any u [".jpg"; ".png"; ".jpeg"]).

(** The body of the [for] loop of [extract_all_recipe_urls]; returning
    without visiting the rest is the [break]. *)
Fixpoint collect_loop (limit : Z) (sitemaps : list string)
    (recipe_urls : list string) : M (list string) :=
  match sitemaps with
  | [] => ret recipe_urls
  | sitemap :: rest =>
      let! urls := extract_urls_from_sitemap sitemap in
      let urls := List.filter is_recipe_url urls in
      let recipe_urls := recipe_urls ++ urls in
      if PyList.len recipe_urls >=? limit then ret recipe_urls
      else collect_loop limit rest recipe_urls
  end.

Definition extract_all_recipe_urls (limit : Z) : M (list string) :=
  let! sitemaps := get_recipe_sitemap_links INDEX_URL in
  let! recipe_urls := collect_loop limit (take 3 sitemaps) [] in
  ret (PyList.slice_to recipe_urls limit).

(** *** crawlability_checker.py *)

(** [line.split(":")[1].strip()] *)
Definition second_field (line : string) : outcome string :=
  match PyList.getitem (PyStr.split ":" line) 1 with
  | Returned f => Returned (PyStr.strip f)
  | Raised e => Raised e
  end.

(** [line.split(":", 1)[1].strip()] *)
Definition rest_after_colon (line : string) : outcome string :=
  match PyList.getitem (PyStr.split1 ":" line) 1 with
  | Returned f => Returned (PyStr.strip f)
  | Raised e => Raised e
  end.

(** One turn of the line loop of [analyze_robots_txt]. *)
Definition robots_line (st : summary) (line : string) : outcome summary :=
  let line := PyStr.strip line in
  if PyStr.startswith line "Disallow" then
    match second_field line with
    | Returned f =>
        Returned (Summary (Allowed st) (Disallowed st ++ [f])
                          (Sitemaps st) (Crawl_Delay st))
    | Raised e => Raised e
    end
  else if PyStr.startswith line "Allow" then
    match second_field line with
    | Returned f =>
        Returned (Summary (Allowed st ++ [f]) (Disallowed st)
                          (Sitemaps st) (Crawl_Delay st))
    | Raised e => Raised e
    end
  else if PyStr.startswith (PyStr.lower line) "sitemap" then
    match rest_after_colon line with
    | Returned f =>
        Returned (Summary (Allowed st) (Disallowed st)
                          (Sitemaps st ++ [f]) (Crawl_Delay st))
    | Raised e => Raised e
    end
  else if PyStr.startswith (PyStr.lower line) "crawl-delay" then
    match second_field line with
    | Returned f =>
        Returned (Summary (Allowed st) (Disallowed st)
                          (Sitemaps st) (Some f))
    | Raised e => Raised e
    end
  else Returned st.

Fixpoint robots_lines (st : summary) (lines : list string)
  : outcome summary :=
  match lines with
  | [] => Returned st
  | line :: rest =>
      match robots_line st line with
      | Returned st' => robots_lines st' rest
      | Raised e => Raised e
      end
  end.

(** The summary of a sequence of lines: the loop started from the empty
    lists and no crawl delay. *)
Definition analyze_lines (lines : list string) : outcome summary :=
  robots_lines (Summary [] [] [] None) lines.

Definition ROBOTS_URL : string := "https://www.tasteofhome.com/robots.txt".

Definition analyze_robots_txt (target : string) : M robots_report :=
  let! response := requests_get target in
  if negb (status_code response =? 200)
  then ret (FetchError (status_code response))
  else
    let lines := PyStr.splitlines_go EmptyString (content response) in
    let! s := lift (analyze_lines lines) in
    ret (Report s).

(** *** content_extractor.py *)

(** [safe_get(selector, attr)] *)
Definition safe_get (soup : Soup.soup) (selector : list Soup.compound)
    (attr : option string) : string :=
  match Soup.select_one selector soup with
  | None => "N/A"
  | Some el =>
      match attr with
      | Some a =>
          match Soup.get el a with
          | Some v => PyStr.strip v
          | None => Soup.get_text_strip el
          end
      | None => Soup.get_text_strip el
      end
  end.

(** The first candidate of the image fallbacks that exists. *)
Definition find_image (soup : Soup.soup) : option Soup.node :=
  match Soup.select_one
          [Soup.tag_class "div" "recipe-image"; Soup.tag_ "img"] soup with
  | Some img => Some img
  | None =>
      match Soup.select_one [Soup.tag_class "img" "primary-image"] soup with
      | Some img => Some img
      | None => Soup.find "img" soup
      end
  end.

Definition extract_image_url (soup : Soup.soup) : string :=
  match find_image soup with
  | Some img =>
      match Soup.get img "src" with
      | Some src => src
      | None => "N/A"
      end
  | None => "N/A"
  end.

Definition extract_ingredients (soup : Soup.soup) : list string :=
  List.filter Soup.nonempty
    (map Soup.get_text_strip
       (Soup.select
          [Soup.tag_class "ul" "recipe-ingredients__list"; Soup.tag_ "li"]
          soup)).

(** The instructions: the primary pass, and the fallback pass when the
    primary list is empty. *)
Definition primary_steps (soup : Soup.soup) : list string :=
  map Soup.get_text_strip
    (Soup.select [Soup.tag_class "li" "recipe-directions__item"] soup).

Definition fallback_steps (soup : Soup.soup) : list string :=
  map Soup.get_text_strip
    (List.filter (fun li => Soup.mem "step" (Soup.get_class li))
                 (Soup.find_all "li" soup)).

Definition extract_steps (soup : Soup.soup) : list string :=
  match primary_steps soup with
  | [] => fallback_steps soup
  | steps => steps
  end.

(** One turn of the nutrition loop on the text of a list item. *)
Definition nutrition_item (nutrition : gmap string string) (text : string)
  : gmap string string :=
  if PyStr.contains ":" text then
    match map PyStr.strip (PyStr.split1 ":" text) with
    | [key; val] => <[key := val]> nutrition
    | _ => nutrition
    end
  else nutrition.

Definition parse_nutrition (texts : list string) : gmap string string :=
  fold_left nutrition_item texts ∅.

Definition extract_nutrition (soup : Soup.soup) : gmap string string :=
  parse_nutrition
    (map Soup.get_text_strip
       (Soup.select
          [Soup.tag_class "div" "nutrition-section"; Soup.tag_ "li"] soup)).

(** [re.findall(r'\b\w+\b', s)]: the scan collects the word characters of
    the current match and closes it at the first character that is not
    one, or at the end of the text. *)
Definition flush (cur : string) (found : list string) : list string :=
  match cur with
  | EmptyString => found
  | _ => cur :: found
  end.

Fixpoint findall_go (cur s : string) : list string :=
  match s with
  | EmptyString => flush cur []
  | String c t =>
      if PyStr.isword c then findall_go (cur +:+ String c EmptyString) t
      else flush cur (findall_go EmptyString t)
  end.

Definition findall_words (s : string) : list string :=
  findall_go EmptyString s.

Definition stopwords : list string :=
  ["the"; "and"; "for"; "with"; "that"; "this"; "from"; "will"; "have";
   "also"; "when"; "which"; "your"; "more"; "make"; "them"; "their";
   "just"; "than"].

Definition keep_word (w : string) : bool :=
  negb (Soup.mem w stopwords) && (3 <? String.length w)%nat.

Definition extract_keywords (description : string) (steps : list string)
  : list string :=
  let text_blob := description +:+ " " +:+ PyStr.join " " steps in
  let words := findall_words (PyStr.lower text_blob) in
  let filtered := List.filter keep_word words in
  map fst (PyList.most_common 10 (PyList.Counter filtered)).

(** The record built from the parsed page. *)
Definition recipe_of_soup (page : string) (soup : Soup.soup) : recipe :=
  let title := safe_get soup [Soup.tag_ "h1"] None in
  let description :=
    safe_get soup [Soup.tag_attr "meta" "name" "description"]
             (Some "content") in
  let steps := extract_steps soup in
  {| url := page;
     title := title;
     description := description;
     image_url := extract_image_url soup;
     ingredients := extract_ingredients soup;
     instructions := steps;
     rating := safe_get soup [Soup.tag_class "span" "review-average"] None;
     prep_time := safe_get soup [Soup.tag_class "span" "prep-time"] None;
     cook_time := safe_get soup [Soup.tag_class "span" "cook-time"] None;
     total_time := safe_get soup [Soup.tag_class "span" "total-time"] None;
     nutrition := extract_nutrition soup;
     categories :=
       map Soup.get_text_strip
           (Soup.select [Soup.tag_class "a" "category-link"] soup);
     keywords := extract_keywords description steps |}.

Definition extract_recipe_data (page : string) : M recipe :=
  emit (Navigate page);;
  let! source := lift (page_source page) in
  ret (recipe_of_soup page (parse_html source)).

(** [if data and data["ingredients"]]: the record always has its thirteen
    keys, so the test is the one on the ingredients. *)
Definition truthy {A} (l : list A) : bool :=
  match l with [] => false | _ => true end.

(** The [for] loop of [batch_scrape_and_save]. *)
Fixpoint scrape_loop (limit idx : Z) (recipe_urls : list string)
    (all_recipes : list recipe) : M (list recipe) :=
  match recipe_urls with
  | [] => ret all_recipes
  | page :: rest =>
      emit (Progress idx limit page);;
      let! data := extract_recipe_data page in
      let all_recipes :=
        if truthy (ingredients data) then all_recipes ++ [data]
        else all_recipes in
      scrape_loop limit (idx + 1) rest all_recipes
  end.

Definition batch_scrape_and_save (limit : Z) (output_path : string)
  : M unit :=
  Os.makedirs (Os.dirname output_path);;
  let! recipe_urls := extract_all_recipe_urls limit in
  let! all_recipes := scrape_loop limit 1 recipe_urls [] in
  Os.dump output_path all_recipes;;
  emit (Saved (PyList.len all_recipes) output_path).

End Crawler.

(** ** The vocabulary of the specification *)

(** [p] occurs in [s], [s] begins with [p], [s] ends with [p]. *)
Definition has_substring (p s : string) : Prop :=
  exists a b, s = a +:+ p +:+ b.

Definition has_prefix (p s : string) : Prop :=
  exists b, s = p +:+ b.

Definition has_suffix (p s : string) : Prop :=
  exists a, s = a +:+ p.

(** [k] is exactly the subsequence of [l] whose elements satisfy [P]:
    nothing is added, nothing that satisfies [P] is dropped, the order and
    the repetitions of [l] are kept. *)
Inductive kept_from {A} (P : A -> Prop) : list A -> list A -> Prop :=
| kept_nil : kept_from P [] []
| kept_keep x l k : P x -> kept_from P l k -> kept_from P (x :: l) (x :: k)
| kept_drop x l k : ~ P x -> kept_from P l k -> kept_from P (x :: l) k.

(** A location that looks like a recipe page and is no raster image. *)
Definition recipe_page (u : string) : Prop :=
  has_substring "/recipes/" u
  /\ ~ (has_suffix ".jpg" u \/ has_suffix ".png" u \/ has_suffix ".jpeg" u).

(** A transport status that [raise_for_status] reports as a failure. *)
Definition error_status (st : Z) : Prop := 400 <= st < 600.

(** The world after one more event. *)
Definition after (w : world) (evs : list event) : world :=
  World (trace w ++ evs) (dirs w) (files w).

(** The text of a nutrition item reads [k] before its first colon and [v]
    after it, both trimmed. *)
Definition colon_entry (text k v : string) : Prop :=
  exists a b, text = a +:+ ":" +:+ b /\ ~ has_substring ":" a
              /\ k = PyStr.strip a /\ v = PyStr.strip b.

(** A stripped robots.txt line that the summary takes note of. *)
Definition directive (line : string) : Prop :=
  has_prefix "Disallow" line \/ has_prefix "Allow" line
  \/ has_prefix "sitemap" (PyStr.lower line)
  \/ has_prefix "crawl-delay" (PyStr.lower line).

(** The summary as the specification words it: each key collects, over
    the stripped lines in order, the field of the lines that start with
    its keyword; the crawl delay is that of the last such line. *)
Definition field2 (line : string) : string :=
  PyStr.strip (nth 1 (PyStr.split ":" line) EmptyString).

Definition rest1 (line : string) : string :=
  PyStr.strip (nth 1 (PyStr.split1 ":" line) EmptyString).

Definition robots_spec (lines : list string) : summary :=
  let ls := map PyStr.strip lines in
  {| Allowed :=
       map field2 (List.filter (fun l => PyStr.startswith l "Allow") ls);
     Disallowed :=
       map field2 (List.filter (fun l => PyStr.startswith l "Disallow") ls);
     Sitemaps :=
       map rest1
         (List.filter
            (fun l => PyStr.startswith (PyStr.lower l) "sitemap") ls);
     Crawl_Delay :=
       last
         (map field2
            (List.filter
               (fun l => PyStr.startswith (PyStr.lower l) "crawl-delay")
               ls)) |}.

(** The instructions as the specification words them: the non-empty texts
    of the direction items and, when there are none, the texts of the
    items of class [step]. *)
Definition steps_spec (soup : Soup.soup) : list string :=
  match List.filter Soup.nonempty (primary_steps soup) with
  | [] => fallback_steps soup
  | steps => steps
  end.

(** Tokens as the specification words them: the text is cut at every
    character outside the class [p] and the empty pieces are dropped, which
    leaves the maximal runs of characters of [p]; the runs are lowercased
    and the stop words and short tokens are dropped. *)
Fixpoint pieces (p : ascii -> bool) (s : string) : list string :=
  match s with
  | EmptyString => [EmptyString]
  | String c t =>
      if p c then
        match pieces p t with
        | f :: fs => String c f :: fs
        | [] => [String c EmptyString]
        end
      else EmptyString :: pieces p t
  end.

Definition runs (p : ascii -> bool) (s : string) : list string :=
  List.filter Soup.nonempty (pieces p s).

Definition tokens_spec (p : ascii -> bool) (description : string)
    (steps : list string) : list string :=
  List.filter keep_word
    (map PyStr.lower (runs p (description +:+ " " +:+ PyStr.join " " steps))).

(** Frequency and first position of a token, and the ranking order:
    more frequent first, and among equally frequent tokens the one met
    first. *)
Definition freq (w : string) (l : list string) : nat :=
  length (List.filter (String.eqb w) l).

Fixpoint first_index (w : string) (l : list string) : nat :=
  match l with
  | [] => 0%nat
  | x :: l' => if String.eqb x w then 0%nat else S (first_index w l')
  end.

Definition ranks_before (toks : list string) (a b : string) : Prop :=
  (freq b toks < freq a toks)%nat
  \/ (freq a toks = freq b toks
      /\ (first_index a toks < first_index b toks)%nat).

(** The distinct tokens in the order in which they are first met. *)
Fixpoint first_seen (l : list string) : list string :=
  match l with
  | [] => []
  | x :: l' =>
      x :: List.filter (fun y => negb (String.eqb x y)) (first_seen l')
  end.

(** [r] lists every distinct token, best rank first. *)
Definition ranking (toks r : list string) : Prop :=
  (forall w, w ∈ r <-> w ∈ toks) /\ StronglySorted (ranks_before toks) r.

(** The keywords over the character class [p]: at most the ten best
    ranked labels. *)
Definition keywords_spec (p : ascii -> bool) (description : string)
    (steps : list string) (kws : list string) : Prop :=
  exists r, ranking (tokens_spec p description steps) r /\ kws = take 10 r.

(** The keywords in the order of the code: the whole text is lowercased
    first, and the lowercased text is cut into the maximal runs of
    characters of [p]; the stop words and short tokens are dropped, and at
    most the ten best ranked labels are kept. *)
Definition tokens_of_lowered (p : ascii -> bool) (description : string)
    (steps : list string) : list string :=
  List.filter keep_word
    (runs p
       (PyStr.lower (description +:+ " " +:+ PyStr.join " " steps))).

Definition keywords_of_lowered (p : ascii -> bool) (description : string)
    (steps : list string) (kws : list string) : Prop :=
  exists r,
    ranking (tokens_of_lowered p description steps) r /\ kws = take 10 r.

(** The extractor's output for a page that the browser loads. *)
Definition extracted (parse_html : string -> Soup.soup)
    (page_source : string -> outcome string) (page : string) (r : recipe)
  : Prop :=
  exists source,
    page_source page = Returned source
    /\ r = recipe_of_soup page (parse_html source).

(** What the scraping loop reports and visits, page by page. *)
Fixpoint scrape_events (limit idx : Z) (pages : list string) : list event :=
  match pages with
  | [] => []
  | page :: rest =>
      Progress idx limit page :: Navigate page
        :: scrape_events limit (idx + 1) rest
  end.

(** ** Further vocabulary *)

(** A text without surrounding whitespace. *)
Definition trimmed (s : string) : Prop := PyStr.strip s = s.

(** Every character of the text is in the class [p]. *)
Fixpoint all_chars (p : ascii -> bool) (s : string) : bool :=
  match s with
  | EmptyString => true
  | String c t => p c && all_chars p t
  end.

(** Two summaries one after the other: the lists are joined and the later
    crawl delay, when there is one, replaces the earlier. *)
Definition summary_app (s1 s2 : summary) : summary :=
  Summary (Allowed s1 ++ Allowed s2) (Disallowed s1 ++ Disallowed s2)
          (Sitemaps s1 ++ Sitemaps s2)
          (match Crawl_Delay s2 with
           | Some d => Some d
           | None => Crawl_Delay s1
           end).

(** *** explore_sitemap_index.py *)

(** What [get_all_sitemaps] prints: the status of an index it could not
    load. *)
Inductive console :=
| FailedToLoad (status : Z).

(** [get_all_sitemaps(index_url)]; the lines printed so far are passed in
    and handed back beside the value. *)
Definition get_all_sitemaps (http : string -> response)
    (parse_xml : string -> Soup.soup) (index_url : string)
    (stdout : list console) : M (list string * list console) :=
  let! response := requests_get http index_url in
  if negb (status_code response =? 200)
  then ret ([], stdout ++ [FailedToLoad (status_code response)])
  else
    let soup := parse_xml (content response) in
    let sitemap_links := loc_texts soup in
    ret (sitemap_links, stdout).

(** *** app.py: the recipe explorer *)
Module Dashboard.

(** [l[start:stop]]: an index below zero counts from the end, and both
    ends are brought into the list. *)
Definition clamp (n i : Z) : nat :=
  Z.to_nat (if i <? 0 then Z.max (n + i) 0 else Z.min i n).

Definition slice {A} (l : list A) (start stop : Z) : list A :=
  let a := clamp (PyList.len l) start in
  let b := clamp (PyList.len l) stop in
  take (b - a) (drop a l).

(** [match(recipe, term)]: the lowercased term occurs in the lowercased
    title or in a lowercased ingredient.  The records are the ones the
    batch wrote, so every key is present. *)
Definition match_ (r : recipe) (term : string) : bool :=
  if PyStr.contains (PyStr.lower term) (PyStr.lower (title r)) then true
  else existsb
         (fun ingredient =>
            PyStr.contains (PyStr.lower term) (PyStr.lower ingredient))
         (ingredients r).

(** [ingredient_filter(recipe, min_ing, max_ing)] *)
Definition ingredient_filter (r : recipe) (min_ing max_ing : Z) : bool :=
  let ingredient_count := PyList.len (ingredients r) in
  (min_ing <=? ingredient_count) && (ingredient_count <=? max_ing).

(** The loop that fills [filtered]. *)
Definition explore (recipes : list recipe) (search_term : string)
    (min_ingredients max_ingredients : Z) : list recipe :=
  fold_left
    (fun filtered r =>
       if (negb (Soup.nonempty search_term) || match_ r search_term)
          && ingredient_filter r min_ingredients max_ingredients
       then filtered ++ [r] else filtered)
    recipes [].

Definition page_size : Z := 10.

(** [(len(filtered) - 1) // page_size + 1 if filtered else 1] *)
Definition total_pages (filtered : list recipe) : Z :=
  if truthy filtered then (PyList.len filtered - 1) / page_size + 1
  else 1.

(** [filtered[start_idx:end_idx]] for the page chosen. *)
Definition current_recipes (filtered : list recipe) (page_num : Z)
  : list recipe :=
  let start_idx := (page_num - 1) * page_size in
  let end_idx := start_idx + page_size in
  slice filtered start_idx end_idx.

(** The page numbers the page input offers: 1 to [total_pages]. *)
Definition page_numbers (filtered : list recipe) : list Z :=
  map (fun k => Z.of_nat k + 1) (seq 0 (Z.to_nat (total_pages filtered))).

(** A record passes the explorer's filters. *)
Definition shown (search_term : string) (lo hi : Z) (r : recipe) : Prop :=
  (search_term = EmptyString
   \/ has_substring (PyStr.lower search_term) (PyStr.lower (title r))
   \/ exists ingredient,
        ingredient ∈ ingredients r
        /\ has_substring (PyStr.lower search_term)
                         (PyStr.lower ingredient))
  /\ lo <= PyList.len (ingredients r) <= hi.

End Dashboard.

(** ** A small site to run the crawler on *)
Module Demo.

Definition loc (u : string) : Soup.node :=
  Soup.Tag "sitemap" [] ∅
    [Soup.Tag "loc" [] ∅ [Soup.NavigableString u]].

Definition index_doc : Soup.soup :=
  [Soup.Tag "sitemapindex" [] ∅
     [loc "https://x/post-sitemap.xml";
      loc "https://x/recipe-sitemap1.xml";
      loc "https://x/recipe-sitemap2.xml";
      loc "https://x/recipe-sitemap3.xml";
      loc "https://x/recipe-sitemap4.xml"]].

Definition child1 : Soup.soup :=
  [Soup.Tag "urlset" [] ∅
     [loc "https://x/recipes/soup/"; loc "https://x/recipes/soup/a.jpg";
      loc "https://x/about/"]].

Definition child2 : Soup.soup :=
  [Soup.Tag "urlset" [] ∅
     [loc "https://x/recipes/empty/"; loc "https://x/recipes/b.png"]].

Definition child3 : Soup.soup :=
  [Soup.Tag "urlset" [] ∅
     [loc "https://x/recipes/cake/"; loc "https://x/recipes/pie/";
      loc "https://x/recipes/pie.jpeg"; loc "https://x/recipes/stew/";
      loc "https://x/recipes/tart/"; loc "https://x/recipes/flan/"]].

(** The server: the sitemap index at its default address, three healthy
    child sitemaps, a robots.txt, and a 404 for anything else. *)
Definition http (target : string) : response :=
  if String.eqb target INDEX_URL then Response 200 "index"
  else if String.eqb target "https://x/recipe-sitemap1.xml"
  then Response 200 "child1"
  else if String.eqb target "https://x/recipe-sitemap2.xml"
  then Response 200 "child2"
  else if String.eqb target "https://x/recipe-sitemap3.xml"
  then Response 200 "child3"
  else if String.eqb target ROBOTS_URL
  then Response 200 "User-agent: *
Disallow
Allow: /"
  else Response 404 "not found".

Definition parse_xml (source : string) : Soup.soup :=
  if String.eqb source "index" then index_doc
  else if String.eqb source "child1" then child1
  else if String.eqb source "child2" then child2
  else if String.eqb source "child3" then child3
  else [].

Definition li (classes : list string) (s : string) : Soup.node :=
  Soup.Tag "li" classes ∅ [Soup.NavigableString s].

Definition soup_page : Soup.soup :=
  [Soup.Tag "html" [] ∅
     [Soup.Tag "h1" [] ∅ [Soup.NavigableString " Soup "];
      Soup.Tag "ul" ["recipe-ingredients__list"] ∅
        [li [] "water"; li [] "  "; li [] "salt"];
      li ["recipe-directions__item"] "Boil the water";
      li ["recipe-directions__item"] "Salt the water"]].

Definition empty_page : Soup.soup :=
  [Soup.Tag "html" [] ∅
     [Soup.Tag "h1" [] ∅ [Soup.NavigableString "Nothing"];
      Soup.Tag "ul" ["recipe-ingredients__list"] ∅ [li [] " "]]].

Definition cake_page : Soup.soup :=
  [Soup.Tag "html" [] ∅
     [Soup.Tag "ul" ["recipe-ingredients__list"] ∅ [li [] "flour"];
      li ["step"] "Bake"]].

Definition page_source (page : string) : outcome string :=
  if String.eqb page "https://x/recipes/soup/" then Returned "soup"
  else if String.eqb page "https://x/recipes/empty/" then Returned "empty"
  else if String.eqb page "https://x/recipes/cake/" then Returned "cake"
  else Raised (WebDriverException page).

Definition parse_html (source : string) : Soup.soup :=
  if String.eqb source "soup" then soup_page
  else if String.eqb source "empty" then empty_page
  else if String.eqb source "cake" then cake_page
  else [].

(** A page whose only direction item has no text, next to an item of
    class [step]. *)
Definition blank_direction_page : Soup.soup :=
  [Soup.Tag "ol" [] ∅
     [li ["recipe-directions__item"] "   "; li ["step"] "Mix"]].

Definition start : world := World [] ∅ ∅.

End Demo.

(** * Properties *)

(** ** Strings *)

Lemma app_cons c (s t : string) : String c s +:+ t = String c (s +:+ t).
Proof. reflexivity. Qed.

Lemma app_empty_l (s : string) : EmptyString +:+ s = s.
Proof. reflexivity. Qed.

Lemma app_empty_r (s : string) : s +:+ EmptyString = s.
Proof. induction s as [|c s IH]; [done|]. by rewrite app_cons, IH. Qed.

Lemma app_assoc_str (a b c : string) : (a +:+ b) +:+ c = a +:+ b +:+ c.
Proof. induction a as [|x a IH]; [done|]. by rewrite !app_cons, IH. Qed.

Lemma ascii_eqb_true (a b : ascii) : Ascii.eqb a b = true <-> a = b.
Proof. apply Ascii.eqb_eq. Qed.

Lemma startswith_prefix (s p : string) :
  PyStr.startswith s p = true <-> has_prefix p s.
Proof.
  revert s. induction p as [|a p IH]; intros s; simpl.
  - split; [intros _; by exists s|done].
  - destruct s as [|b s].
    + split; [done|]. intros [t Ht]. by rewrite app_cons in Ht.
    + rewrite andb_true_iff, ascii_eqb_true, IH. split.
      * intros [-> [t ->]]. by exists t.
      * intros [t Ht]. rewrite app_cons in Ht. injection Ht as -> ->.
        split; [done|by exists t].
Qed.

Lemma contains_substring (p s : string) :
  PyStr.contains p s = true <-> has_substring p s.
Proof.
  induction s as [|c s IH]; simpl.
  - rewrite orb_false_r, startswith_prefix. split.
    + intros [b ->]. by exists EmptyString, b.
    + intros [[|x a] [b H]]; [by exists b|by rewrite app_cons in H].
  - rewrite orb_true_iff, startswith_prefix, IH. split.
    + intros [[b ->]|[a [b ->]]].
      * by exists EmptyString, b.
      * by exists (String c a), b.
    + intros [[|x a] [b H]].
      * left. by exists b.
      * right. rewrite app_cons in H. injection H as -> ->. by exists a, b.
Qed.

Lemma endswith_cons c (s p : string) :
  PyStr.endswith (String c s) p
  = String.eqb (String c s) p || PyStr.endswith s p.
Proof. reflexivity. Qed.

Lemma endswith_suffix (s p : string) :
  PyStr.endswith s p = true <-> has_suffix p s.
Proof.
  induction s as [|c s IH].
  - change (PyStr.endswith EmptyString p)
      with (String.eqb EmptyString p || false).
    rewrite orb_false_r, String.eqb_eq. split.
    + intros <-. by exists EmptyString.
    + intros [[|x a] H]; [done|by rewrite app_cons in H].
  - rewrite endswith_cons, orb_true_iff, String.eqb_eq, IH. split.
    + intros [<-|[a ->]]; [by exists EmptyString|by exists (String c a)].
    + intros [[|x a] H]; [by left|].
      right. rewrite app_cons in H. injection H as -> ->. by exists a.
Qed.

Lemma contains_false (p s : string) :
  PyStr.contains p s = false <-> ~ has_substring p s.
Proof. rewrite <- contains_substring. by destruct (PyStr.contains p s). Qed.

Lemma is_recipe_url_page (u : string) :
  is_recipe_url u = true <-> recipe_page u.
Proof.
  unfold is_recipe_url, recipe_page, PyStr.endswith_any. simpl.
  rewrite andb_true_iff, negb_true_iff, contains_substring.
  rewrite orb_false_r, !orb_false_iff.
  split.
  - intros [H [H1 [H2 H3]]]. split; [done|].
    rewrite <- !endswith_suffix. rewrite H1, H2, H3. by intros [|[|]].
  - intros [H Hn]. split; [done|].
    rewrite <- !endswith_suffix in Hn.
    destruct (PyStr.endswith u ".jpg"), (PyStr.endswith u ".png"),
      (PyStr.endswith u ".jpeg"); tauto.
Qed.

(** A comprehension with a condition keeps exactly the subsequence that
    meets the condition. *)
Lemma filter_kept_from {A} (f : A -> bool) (P : A -> Prop) (l : list A) :
  (forall x, f x = true <-> P x) -> kept_from P l (List.filter f l).
Proof.
  intros Hf. induction l as [|x l IH]; simpl; [constructor|].
  destruct (f x) eqn:E.
  - apply kept_keep; [by apply Hf|done].
  - apply kept_drop; [|done]. rewrite <- Hf. congruence.
Qed.

Lemma kept_from_unique {A} (P : A -> Prop) (l k1 k2 : list A) :
  kept_from P l k1 -> kept_from P l k2 -> k1 = k2.
Proof.
  intros H1. revert k2.
  induction H1 as [|x l k HP _ IH|x l k HP _ IH]; intros k2 H2;
    inversion H2; subst; try tauto.
  - f_equal. by apply IH.
  - by apply IH.
Qed.

Lemma kept_from_sublist {A} (P : A -> Prop) (l k : list A) :
  kept_from P l k -> sublist k l /\ Forall P k.
Proof.
  induction 1 as [|x l k HP _ [IH1 IH2]|x l k HP _ [IH1 IH2]]; split;
    try constructor; auto.
Qed.

(** ** Running the effect monad *)

(** Goals about the status a concrete server answers with. *)
Ltac compute_status :=
  match goal with
  | |- context [status_code ?r] =>
      let v := eval vm_compute in (status_code r) in
      change (status_code r) with v
  end;
  unfold error_status; lia.

Lemma raise_for_status_ok (r : response) (w : world) :
  ~ error_status (status_code r) -> raise_for_status r w = (Returned tt, w).
Proof.
  unfold error_status, raise_for_status. intros H.
  destruct (400 <=? status_code r) eqn:E1;
    destruct (status_code r <? 600) eqn:E2; try done.
  apply Z.leb_le in E1. apply Z.ltb_lt in E2. lia.
Qed.

Lemma raise_for_status_error (r : response) (w : world) :
  error_status (status_code r) ->
  raise_for_status r w = (Raised (HTTPError (status_code r)), w).
Proof.
  unfold error_status, raise_for_status. intros [H1 H2].
  apply Z.leb_le in H1. apply Z.ltb_lt in H2. by rewrite H1, H2.
Qed.

Lemma after_after (w : world) (e1 e2 : list event) :
  after (after w e1) e2 = after w (e1 ++ e2).
Proof. unfold after. simpl. by rewrite app_assoc. Qed.

Lemma after_nil (w : world) : after w [] = w.
Proof. destruct w. unfold after. simpl. by rewrite app_nil_r. Qed.

Lemma extract_urls_from_sitemap_ok http parse_xml (target : string) w :
  ~ error_status (status_code (http target)) ->
  extract_urls_from_sitemap http parse_xml target w
  = (Returned (loc_texts (parse_xml (content (http target)))),
     after w [Request target]).
Proof.
  intros H. unfold extract_urls_from_sitemap, requests_get, bind, emit, ret.
  simpl. by rewrite raise_for_status_ok.
Qed.

Lemma extract_urls_from_sitemap_error http parse_xml (target : string) w :
  error_status (status_code (http target)) ->
  extract_urls_from_sitemap http parse_xml target w
  = (Raised (HTTPError (status_code (http target))),
     after w [Request target]).
Proof.
  intros H. unfold extract_urls_from_sitemap, requests_get, bind, emit, ret.
  simpl. by rewrite raise_for_status_error.
Qed.

Lemma get_recipe_sitemap_links_ok http parse_xml (target : string) w :
  ~ error_status (status_code (http target)) ->
  get_recipe_sitemap_links http parse_xml target w
  = (Returned
       (List.filter (fun u => PyStr.contains "recipe-sitemap" u)
          (loc_texts (parse_xml (content (http target))))),
     after w [Request target]).
Proof.
  intros H. unfold get_recipe_sitemap_links, requests_get, bind, emit, ret.
  simpl. by rewrite raise_for_status_ok.
Qed.

Lemma get_recipe_sitemap_links_error http parse_xml (target : string) w :
  error_status (status_code (http target)) ->
  get_recipe_sitemap_links http parse_xml target w
  = (Raised (HTTPError (status_code (http target))),
     after w [Request target]).
Proof.
  intros H. unfold get_recipe_sitemap_links, requests_get, bind, emit, ret.
  simpl. by rewrite raise_for_status_error.
Qed.

(** ** Sitemap resolver *)

(** C2: when the index is served, the resolver issues one request and
    returns exactly the subsequence of the texts of the [loc] elements, in
    document order, that contain the marker [recipe-sitemap]: nothing is
    added, reordered or deduplicated, and only the texts without the marker
    are left out. *)
Theorem resolver_returns_marked_subsequence
    http parse_xml (index_url : string) (w : world) :
  ~ error_status (status_code (http index_url)) ->
  exists links,
    get_recipe_sitemap_links http parse_xml index_url w
    = (Returned links, after w [Request index_url])
    /\ kept_from (has_substring "recipe-sitemap")
         (loc_texts (parse_xml (content (http index_url)))) links.
Proof.
  intros H. eexists. split.
  - by apply get_recipe_sitemap_links_ok.
  - apply filter_kept_from. intros u. apply contains_substring.
Qed.

Lemma resolver_returns_marked_subsequence_witness :
  ~ error_status (status_code (Demo.http INDEX_URL))
  /\ exists links,
       get_recipe_sitemap_links Demo.http Demo.parse_xml INDEX_URL Demo.start
       = (Returned links, after Demo.start [Request INDEX_URL])
       /\ kept_from (has_substring "recipe-sitemap")
            (loc_texts (Demo.parse_xml (content (Demo.http INDEX_URL))))
            links.
Proof.
  assert (H : ~ error_status (status_code (Demo.http INDEX_URL))).
  { compute_status. }
  split; [exact H|].
  exact (resolver_returns_marked_subsequence
           Demo.http Demo.parse_xml INDEX_URL Demo.start H).
Defined.

(** A location listed twice is returned twice, and a [loc] nested deeper
    in the document is found as well. *)
Example resolver_keeps_order_and_repeats :
  fst (get_recipe_sitemap_links
         (fun _ => Response 200 "index")
         (fun _ =>
            [Soup.Tag "sitemapindex" [] ∅
               [Demo.loc "https://x/recipe-sitemap2.xml";
                Demo.loc "https://x/page-sitemap.xml";
                Demo.loc "https://x/recipe-sitemap1.xml";
                Demo.loc "https://x/Recipe-Sitemap9.xml";
                Demo.loc "https://x/recipe-sitemap2.xml"]])
         INDEX_URL Demo.start)
  = Returned ["https://x/recipe-sitemap2.xml";
              "https://x/recipe-sitemap1.xml";
              "https://x/recipe-sitemap2.xml"].
Proof. by vm_compute. Qed.

(** ** URL collector *)

Lemma slice_to_positive {A} (l : list A) (limit : Z) :
  0 <= limit -> PyList.slice_to l limit = take (Z.to_nat limit) l.
Proof.
  intros H. unfold PyList.slice_to.
  apply Z.leb_le in H. by rewrite H.
Qed.

(** The loop over the child sitemaps: it visits a prefix of them, the
    accumulator stays short of the limit before the last visit, and the
    loop only leaves sitemaps unvisited once the limit is reached. *)
Lemma collect_loop_prefix http parse_xml (limit : Z)
    (sitemaps acc : list string) (w : world) :
  let found := fun s =>
    List.filter is_recipe_url (loc_texts (parse_xml (content (http s)))) in
  Forall (fun s => ~ error_status (status_code (http s))) sitemaps ->
  exists n,
    (n <= length sitemaps)%nat
    /\ collect_loop http parse_xml limit sitemaps acc w
       = (Returned (acc ++ concat (map found (take n sitemaps))),
          after w (map Request (take n sitemaps)))
    /\ (forall k, (0 < k < n)%nat ->
          PyList.len (acc ++ concat (map found (take k sitemaps))) < limit)
    /\ ((n < length sitemaps)%nat ->
          limit <= PyList.len (acc ++ concat (map found (take n sitemaps)))).
Proof.
  intros found. revert acc w.
  induction sitemaps as [|s rest IH]; intros acc w Hok.
  - exists 0%nat. simpl. rewrite app_nil_r, after_nil.
    repeat split; auto with lia.
  - inversion Hok as [|? ? Hs Hrest]; subst.
    cbn [collect_loop]. unfold bind at 1.
    rewrite extract_urls_from_sitemap_ok by done.
    fold (found s).
    destruct (PyList.len (acc ++ found s) >=? limit) eqn:E.
    + exists 1%nat. simpl. rewrite app_nil_r.
      split; [lia|]. split; [done|]. split; [intros k Hk; lia|].
      intros _. apply Z.geb_le in E. lia.
    + destruct (IH (acc ++ found s) (after w [Request s]) Hrest)
        as (n & Hn & Hrun & Hbefore & Hstop).
      exists (S n). simpl. rewrite Hrun, after_after, <- !app_assoc.
      split; [lia|]. split; [done|]. split.
      * intros [|k] Hk; [lia|]. simpl.
        destruct k as [|k].
        -- simpl. rewrite app_nil_r.
           rewrite Z.geb_leb in E. apply Z.leb_gt in E. lia.
        -- rewrite app_assoc. apply Hbefore. lia.
      * intros Hlt. rewrite app_assoc. apply Hstop. lia.
Qed.

(** C1: for a positive limit, with the index and the first three child
    sitemaps served, the collector visits a prefix of at most three of the
    child sitemaps the resolver returned, in order; from each it keeps
    exactly the locations that contain [/recipes/] and do not end in
    [.jpg], [.png] or [.jpeg]; it stops after the first child sitemap at
    which it holds at least [limit] locations; and it returns the first
    [limit] of them in discovery order. *)
Theorem collector_returns_first_limit
    http parse_xml (limit : Z) (w w1 : world) (links : list string) :
  0 < limit ->
  get_recipe_sitemap_links http parse_xml INDEX_URL w = (Returned links, w1) ->
  Forall (fun s => ~ error_status (status_code (http s))) (take 3 links) ->
  exists (n : nat) (keeps : list (list string)),
    (n <= 3)%nat /\ (n <= length links)%nat
    /\ Forall2
         (fun s k =>
            kept_from recipe_page
              (loc_texts (parse_xml (content (http s)))) k)
         (take n links) keeps
    /\ (forall k, (k < n)%nat -> PyList.len (concat (take k keeps)) < limit)
    /\ ((n < 3)%nat -> (n < length links)%nat ->
        limit <= PyList.len (concat keeps))
    /\ extract_all_recipe_urls http parse_xml limit w
       = (Returned (take (Z.to_nat limit) (concat keeps)),
          after w1 (map Request (take n links))).
Proof.
  intros Hlimit Hlinks Hok.
  set (found := fun s =>
    List.filter is_recipe_url (loc_texts (parse_xml (content (http s))))).
  destruct (collect_loop_prefix http parse_xml limit (take 3 links) [] w1 Hok)
    as (n & Hn & Hrun & Hbefore & Hstop).
  fold found in Hrun, Hbefore, Hstop. simpl in Hrun, Hbefore, Hstop.
  rewrite length_take in Hn, Hstop.
  assert (Htake : forall k, (k <= n)%nat ->
            take k (take 3 links) = take k links).
  { intros k Hk. rewrite take_take. f_equal. lia. }
  rewrite Htake in Hrun by lia.
  exists n, (map found (take n links)).
  split; [lia|]. split; [lia|]. split.
  { apply Forall2_fmap_r, Forall_Forall2_diag, Forall_forall.
    intros s _. apply filter_kept_from, is_recipe_url_page. }
  split.
  { intros k Hk. destruct k as [|k]; [simpl; unfold PyList.len; simpl; lia|].
    rewrite <- fmap_take, take_take.
    replace (S k `min` n)%nat with (S k) by lia.
    rewrite <- (Htake (S k)) by lia. apply Hbefore. lia. }
  split.
  { intros H3 Hlen. rewrite <- (Htake n) by lia. apply Hstop. lia. }
  unfold extract_all_recipe_urls, bind. rewrite Hlinks, Hrun.
  unfold ret. by rewrite slice_to_positive by lia.
Qed.

Lemma collector_returns_first_limit_witness :
  exists (n : nat) (keeps : list (list string)),
    (n <= 3)%nat
    /\ (n <= length ["https://x/recipe-sitemap1.xml";
                     "https://x/recipe-sitemap2.xml";
                     "https://x/recipe-sitemap3.xml";
                     "https://x/recipe-sitemap4.xml"])%nat
    /\ Forall2
         (fun s k =>
            kept_from recipe_page
              (loc_texts (Demo.parse_xml (content (Demo.http s)))) k)
         (take n ["https://x/recipe-sitemap1.xml";
                  "https://x/recipe-sitemap2.xml";
                  "https://x/recipe-sitemap3.xml";
                  "https://x/recipe-sitemap4.xml"]) keeps
    /\ (forall k, (k < n)%nat -> PyList.len (concat (take k keeps)) < 3)
    /\ ((n < 3)%nat ->
        (n < length ["https://x/recipe-sitemap1.xml";
                     "https://x/recipe-sitemap2.xml";
                     "https://x/recipe-sitemap3.xml";
                     "https://x/recipe-sitemap4.xml"])%nat ->
        3 <= PyList.len (concat keeps))
    /\ extract_all_recipe_urls Demo.http Demo.parse_xml 3 Demo.start
       = (Returned (take (Z.to_nat 3) (concat keeps)),
          after (after Demo.start [Request INDEX_URL])
            (map Request
               (take n ["https://x/recipe-sitemap1.xml";
                        "https://x/recipe-sitemap2.xml";
                        "https://x/recipe-sitemap3.xml";
                        "https://x/recipe-sitemap4.xml"]))).
Proof.
  apply (collector_returns_first_limit Demo.http Demo.parse_xml 3 Demo.start).
  - lia.
  - vm_compute. reflexivity.
  - vm_compute. repeat constructor; intros [H _]; apply H; reflexivity.
Defined.

(** The two collector scenarios of the specification's test list, run on
    the model: a limit below what the sitemaps offer cuts the result to
    the first [limit] locations found. *)
Example collector_runs_three_sitemaps :
  fst (extract_all_recipe_urls Demo.http Demo.parse_xml 3 Demo.start)
  = Returned ["https://x/recipes/soup/"; "https://x/recipes/empty/";
              "https://x/recipes/cake/"].
Proof. vm_compute. reflexivity. Qed.

Example collector_stops_at_limit :
  extract_all_recipe_urls Demo.http Demo.parse_xml 1 Demo.start
  = (Returned ["https://x/recipes/soup/"],
     after Demo.start
       [Request INDEX_URL; Request "https://x/recipe-sitemap1.xml"]).
Proof. vm_compute. reflexivity. Qed.

(** Without the hypothesis on the limit the slice counts from the end. *)
Example collector_negative_limit :
  fst (extract_all_recipe_urls Demo.http Demo.parse_xml (-1) Demo.start)
  = Returned [].
Proof. vm_compute. reflexivity. Qed.

(** ** Fetch failures *)

(** A failing child sitemap that the loop reaches ends the loop with the
    exception; what was accumulated is lost. *)
Lemma collect_loop_raises http parse_xml (limit : Z)
    (pre : list string) (s : string) (post acc : list string) (w : world) :
  let found := fun s =>
    List.filter is_recipe_url (loc_texts (parse_xml (content (http s)))) in
  Forall (fun s => ~ error_status (status_code (http s))) pre ->
  (pre <> [] -> PyList.len (acc ++ concat (map found pre)) < limit) ->
  error_status (status_code (http s)) ->
  collect_loop http parse_xml limit (pre ++ s :: post) acc w
  = (Raised (HTTPError (status_code (http s))),
     after w (map Request (pre ++ [s]))).
Proof.
  intros found. revert acc w.
  induction pre as [|p pre IH]; intros acc w Hok Hshort Hs.
  - simpl. unfold bind. by rewrite extract_urls_from_sitemap_error.
  - inversion Hok as [|? ? Hp Hpre]; subst.
    assert (Hne : p :: pre <> []) by done.
    specialize (Hshort Hne). simpl in Hshort.
    unfold PyList.len in Hshort. rewrite !length_app in Hshort.
    cbn [app collect_loop]. unfold bind at 1.
    rewrite extract_urls_from_sitemap_ok by done. fold (found p).
    assert (E : (PyList.len (acc ++ found p) >=? limit) = false).
    { rewrite Z.geb_leb. apply Z.leb_gt. unfold PyList.len.
      rewrite length_app. lia. }
    rewrite E, IH; try done.
    + by rewrite after_after.
    + intros _. unfold PyList.len. rewrite !length_app. lia.
Qed.

(** C7, as the code has it: a sitemap fetch answered with a status from
    400 to 599 raises [HTTPError] after a single request, from the resolver
    and from the child-sitemap reader alike, and the exception ends the
    collector with no locations returned, whether the index fails or a
    child sitemap that the loop reaches; a robots.txt fetch answered with
    any status other than 200 raises nothing: after a single request
    [analyze_robots_txt] returns the error mapping that names the status,
    in place of the summary. *)
Theorem fetch_failure_aborts_the_call
    http parse_xml (target : string) (limit : Z) (w : world) :
  (error_status (status_code (http target)) ->
   get_recipe_sitemap_links http parse_xml target w
   = (Raised (HTTPError (status_code (http target))),
      after w [Request target])
   /\ extract_urls_from_sitemap http parse_xml target w
      = (Raised (HTTPError (status_code (http target))),
         after w [Request target]))
  /\ (error_status (status_code (http INDEX_URL)) ->
      extract_all_recipe_urls http parse_xml limit w
      = (Raised (HTTPError (status_code (http INDEX_URL))),
         after w [Request INDEX_URL]))
  /\ (forall links w1 pre post,
        get_recipe_sitemap_links http parse_xml INDEX_URL w
        = (Returned links, w1) ->
        take 3 links = pre ++ target :: post ->
        Forall (fun s => ~ error_status (status_code (http s))) pre ->
        (pre <> [] ->
         PyList.len
           (concat
              (map (fun s =>
                      List.filter is_recipe_url
                        (loc_texts (parse_xml (content (http s))))) pre))
         < limit) ->
        error_status (status_code (http target)) ->
        extract_all_recipe_urls http parse_xml limit w
        = (Raised (HTTPError (status_code (http target))),
           after w1 (map Request (pre ++ [target]))))
  /\ (status_code (http target) <> 200 ->
      analyze_robots_txt http target w
      = (Returned (FetchError (status_code (http target))),
         after w [Request target])).
Proof.
  split; [|split; [|split]].
  - intros H. split.
    + by apply get_recipe_sitemap_links_error.
    + by apply extract_urls_from_sitemap_error.
  - intros H. unfold extract_all_recipe_urls, bind.
    by rewrite get_recipe_sitemap_links_error.
  - intros links w1 pre post Hlinks Htake Hpre Hshort Htarget.
    unfold extract_all_recipe_urls, bind. rewrite Hlinks, Htake.
    by rewrite collect_loop_raises.
  - intros H. unfold analyze_robots_txt, requests_get, bind, emit, ret.
    simpl. apply Z.eqb_neq in H. by rewrite H.
Qed.

Lemma fetch_failure_aborts_the_call_witness :
  extract_urls_from_sitemap Demo.http Demo.parse_xml
    "https://x/recipe-sitemap4.xml" Demo.start
  = (Raised (HTTPError 404),
     after Demo.start [Request "https://x/recipe-sitemap4.xml"])
  /\ analyze_robots_txt Demo.http "https://x/recipe-sitemap4.xml" Demo.start
     = (Returned (FetchError 404),
        after Demo.start [Request "https://x/recipe-sitemap4.xml"]).
Proof.
  destruct (fetch_failure_aborts_the_call Demo.http Demo.parse_xml
              "https://x/recipe-sitemap4.xml" 3 Demo.start)
    as (H1 & _ & _ & H4).
  split.
  - apply H1. compute_status.
  - apply H4. compute_status.
Defined.

(** C7 as stated, with every failed fetch raising, fails for robots.txt:
    on a 404 the call returns normally, with the error mapping as its
    value, and no exception leaves it. *)
Lemma robots_fetch_failure_is_returned :
  error_status (status_code (Demo.http "https://x/robots.txt"))
  /\ analyze_robots_txt Demo.http "https://x/robots.txt" Demo.start
     = (Returned (FetchError 404),
        after Demo.start [Request "https://x/robots.txt"])
  /\ ~ exists e,
         fst (analyze_robots_txt Demo.http "https://x/robots.txt" Demo.start)
         = Raised e.
Proof.
  split; [compute_status|].
  split; [vm_compute; reflexivity|].
  intros [e H]. vm_compute in H. discriminate.
Qed.

(** ** Splitting at a separator *)

Lemma contains_char_cons (sep c : ascii) (t : string) :
  PyStr.contains (String sep EmptyString) (String c t)
  = Ascii.eqb c sep || PyStr.contains (String sep EmptyString) t.
Proof.
  simpl. rewrite andb_true_r. by rewrite (Ascii.eqb_sym sep c).
Qed.

Lemma split_not_nil (sep : ascii) (s : string) : PyStr.split sep s <> [].
Proof.
  induction s as [|c t IH]; simpl; [done|].
  destruct (Ascii.eqb c sep); [done|]. by destruct (PyStr.split sep t).
Qed.

Lemma split1_not_nil (sep : ascii) (s : string) : PyStr.split1 sep s <> [].
Proof.
  induction s as [|c t IH]; simpl; [done|].
  destruct (Ascii.eqb c sep); [done|]. by destruct (PyStr.split1 sep t).
Qed.

(** Without the separator the text is the only field; with it there is a
    second field. *)
Lemma split_second (sep : ascii) (s : string) :
  if PyStr.contains (String sep EmptyString) s
  then is_Some (PyStr.split sep s !! 1%nat)
  else PyStr.split sep s = [s].
Proof.
  induction s as [|c t IH]; [done|].
  rewrite contains_char_cons. cbn [PyStr.split].
  destruct (Ascii.eqb c sep); simpl.
  - pose proof (split_not_nil sep t).
    destruct (PyStr.split sep t); [done|]. by eexists.
  - destruct (PyStr.contains (String sep EmptyString) t).
    + destruct (PyStr.split sep t) as [|f [|g fs]]; simpl in *;
        by destruct IH.
    + by rewrite IH.
Qed.

(** [split1] cuts at the first separator only: before it comes a text
    without separator, after it the rest of the text. *)
Lemma split1_cut (sep : ascii) (s : string) :
  if PyStr.contains (String sep EmptyString) s
  then exists a b, PyStr.split1 sep s = [a; b]
                   /\ s = a +:+ String sep b
                   /\ PyStr.contains (String sep EmptyString) a = false
  else PyStr.split1 sep s = [s].
Proof.
  induction s as [|c t IH]; [done|].
  rewrite contains_char_cons. cbn [PyStr.split1].
  destruct (Ascii.eqb c sep) eqn:E; simpl.
  - apply Ascii.eqb_eq in E as ->. by exists EmptyString, t.
  - destruct (PyStr.contains (String sep EmptyString) t).
    + destruct IH as (a & b & -> & -> & Ha).
      exists (String c a), b. split; [done|]. split; [done|].
      by rewrite contains_char_cons, E, Ha.
    + by rewrite IH.
Qed.

Lemma second_field_colon (line : string) :
  second_field line
  = if PyStr.contains ":" line then Returned (field2 line)
    else Raised IndexError.
Proof.
  unfold second_field, field2, PyList.getitem.
  pose proof (split_second ":" line) as H. rewrite nth_lookup.
  destruct (PyStr.contains ":" line).
  - by destruct H as [f ->].
  - by rewrite H.
Qed.

Lemma rest_after_colon_colon (line : string) :
  rest_after_colon line
  = if PyStr.contains ":" line then Returned (rest1 line)
    else Raised IndexError.
Proof.
  unfold rest_after_colon, rest1, PyList.getitem.
  pose proof (split1_cut ":" line) as H. rewrite nth_lookup.
  destruct (PyStr.contains ":" line).
  - by destruct H as (a & b & -> & _).
  - by rewrite H.
Qed.

(** ** robots.txt summary *)

(** The four keyword tests of the line loop exclude one another, so the
    order of the [elif] chain decides nothing. *)
Lemma robots_tests_exclusive (s : string) :
  (PyStr.startswith s "Disallow" = true ->
   PyStr.startswith s "Allow" = false
   /\ PyStr.startswith (PyStr.lower s) "sitemap" = false
   /\ PyStr.startswith (PyStr.lower s) "crawl-delay" = false)
  /\ (PyStr.startswith s "Allow" = true ->
      PyStr.startswith (PyStr.lower s) "sitemap" = false
      /\ PyStr.startswith (PyStr.lower s) "crawl-delay" = false)
  /\ (PyStr.startswith (PyStr.lower s) "sitemap" = true ->
      PyStr.startswith (PyStr.lower s) "crawl-delay" = false).
Proof.
  destruct s as [|c t]; [done|].
  cbn [PyStr.lower].
  assert (Hd : forall p q, PyStr.startswith (String c t) (String p q)
                           = Ascii.eqb p c && PyStr.startswith t q)
    by done.
  assert (Hl : forall p q,
             PyStr.startswith (String (PyStr.lower_char c) (PyStr.lower t))
               (String p q)
             = Ascii.eqb p (PyStr.lower_char c)
               && PyStr.startswith (PyStr.lower t) q)
    by done.
  rewrite !Hd, !Hl.
  split; [|split]; intros [E _]%andb_true_iff; apply Ascii.eqb_eq in E;
    try rewrite <- E; done.
Qed.

Lemma robots_line_step (st : summary) (line : string) :
  let s := PyStr.strip line in
  (directive s -> has_substring ":" s) ->
  robots_line st line
  = Returned
      (Summary
         (Allowed st ++ Allowed (robots_spec [line]))
         (Disallowed st ++ Disallowed (robots_spec [line]))
         (Sitemaps st ++ Sitemaps (robots_spec [line]))
         (match Crawl_Delay (robots_spec [line]) with
          | Some d => Some d
          | None => Crawl_Delay st
          end)).
Proof.
  intros s Hcolon. unfold robots_line, robots_spec. cbv zeta.
  cbn [map List.filter Allowed Disallowed Sitemaps Crawl_Delay].
  subst s. revert Hcolon. generalize (PyStr.strip line). intros s Hcolon.
  unfold directive in Hcolon.
  rewrite <- !startswith_prefix, <- contains_substring in Hcolon.
  rewrite !second_field_colon, rest_after_colon_colon.
  destruct (robots_tests_exclusive s) as (Hd & Ha & Hm).
  destruct (PyStr.startswith s "Disallow") eqn:E1.
  { destruct (Hd eq_refl) as (-> & -> & ->).
    rewrite Hcolon by auto. simpl. by rewrite !app_nil_r. }
  destruct (PyStr.startswith s "Allow") eqn:E2.
  { destruct (Ha eq_refl) as (-> & ->).
    rewrite Hcolon by auto. simpl. by rewrite !app_nil_r. }
  destruct (PyStr.startswith (PyStr.lower s) "sitemap") eqn:E3.
  { rewrite (Hm eq_refl).
    rewrite Hcolon by auto. simpl. by rewrite !app_nil_r. }
  destruct (PyStr.startswith (PyStr.lower s) "crawl-delay") eqn:E4.
  { rewrite Hcolon by auto. simpl. by rewrite !app_nil_r. }
  simpl. rewrite !app_nil_r. by destruct st.
Qed.

Lemma robots_spec_cons (line : string) (lines : list string) :
  let one := robots_spec [line] in
  let more := robots_spec lines in
  robots_spec (line :: lines)
  = Summary (Allowed one ++ Allowed more)
            (Disallowed one ++ Disallowed more)
            (Sitemaps one ++ Sitemaps more)
            (match Crawl_Delay more with
             | Some d => Some d
             | None => Crawl_Delay one
             end).
Proof.
  unfold robots_spec. cbv zeta.
  cbn [Allowed Disallowed Sitemaps Crawl_Delay].
  change (map PyStr.strip (line :: lines))
    with (map PyStr.strip [line] ++ map PyStr.strip lines).
  rewrite !List.filter_app, !map_app, last_app. reflexivity.
Qed.

Lemma robots_lines_spec (st : summary) (lines : list string) :
  Forall (fun line => directive (PyStr.strip line) ->
                      has_substring ":" (PyStr.strip line)) lines ->
  robots_lines st lines
  = Returned
      (Summary
         (Allowed st ++ Allowed (robots_spec lines))
         (Disallowed st ++ Disallowed (robots_spec lines))
         (Sitemaps st ++ Sitemaps (robots_spec lines))
         (match Crawl_Delay (robots_spec lines) with
          | Some d => Some d
          | None => Crawl_Delay st
          end)).
Proof.
  revert st. induction lines as [|line lines IH]; intros st Hall.
  - simpl. rewrite !app_nil_r. by destruct st.
  - inversion Hall as [|? ? Hline Hrest]; subst.
    cbn [robots_lines]. rewrite robots_line_step by done.
    rewrite IH by done. rewrite (robots_spec_cons line lines). cbv zeta.
    cbn [Allowed Disallowed Sitemaps Crawl_Delay].
    rewrite <- !app_assoc.
    by destruct (Crawl_Delay (robots_spec lines)).
Qed.

(** C6: over lines in which every noted line has its colon, the line loop
    returns the summary the specification words: the stripped lines that
    start with [Disallow] give [Disallowed] their second colon field,
    trimmed, in order; those that start with [Allow] do the same for
    [Allowed]; those that start with [sitemap] in any case give
    [Sitemaps] what follows their first colon, trimmed; the last line that
    starts with [crawl-delay] in any case sets the crawl delay to its
    second colon field; without such a line the crawl delay is null. *)
Theorem robots_summary_scans_lines (lines : list string) :
  Forall (fun line => directive (PyStr.strip line) ->
                      has_substring ":" (PyStr.strip line)) lines ->
  analyze_lines lines = Returned (robots_spec lines)
  /\ (Forall (fun line =>
                ~ has_prefix "crawl-delay" (PyStr.lower (PyStr.strip line)))
             lines ->
      Crawl_Delay (robots_spec lines) = None).
Proof.
  intros Hall. split.
  - unfold analyze_lines. rewrite robots_lines_spec by done.
    generalize (robots_spec lines). by intros [a d s [c|]].
  - intros Hnone. unfold robots_spec. cbv zeta.
    cbn [Crawl_Delay]. apply last_None.
    assert (List.filter
              (fun l => PyStr.startswith (PyStr.lower l) "crawl-delay")
              (map PyStr.strip lines) = []) as ->; [|done].
    clear Hall. induction Hnone as [|line lines Hline _ IH]; [done|].
    cbn [map List.filter]. rewrite IH.
    rewrite <- startswith_prefix in Hline.
    by destruct (PyStr.startswith _ _).
Qed.

Lemma robots_summary_scans_lines_witness :
  analyze_lines ["Disallow: /admin/"; "Sitemap: https://x/a.xml";
                 "Crawl-delay: 2"]
  = Returned
      (robots_spec ["Disallow: /admin/"; "Sitemap: https://x/a.xml";
                    "Crawl-delay: 2"]).
Proof.
  apply (robots_summary_scans_lines
           ["Disallow: /admin/"; "Sitemap: https://x/a.xml";
            "Crawl-delay: 2"]).
  repeat constructor; intros _; apply contains_substring; reflexivity.
Defined.

(** The robots example of the specification's test list. *)
Example robots_three_lines :
  analyze_lines ["Disallow: /admin/"; "Sitemap: https://x/a.xml";
                 "Crawl-delay: 2"]
  = Returned (Summary [] ["/admin/"] ["https://x/a.xml"] (Some "2")).
Proof. reflexivity. Qed.

Example robots_no_delay :
  analyze_lines ["User-agent: *"; "  Allow: /a:b "; "SITEMAP:https://x:1/s"]
  = Returned (Summary ["/a"] [] ["https://x:1/s"] None).
Proof. reflexivity. Qed.

(** A noted line without colon has no second field. *)
Lemma robots_line_raises (st : summary) (line : string) :
  directive (PyStr.strip line) ->
  ~ has_substring ":" (PyStr.strip line) ->
  robots_line st line = Raised IndexError.
Proof.
  unfold robots_line, directive. cbv zeta.
  rewrite <- !startswith_prefix, <- contains_false.
  generalize (PyStr.strip line). intros s Hdir Hcolon.
  rewrite !second_field_colon, rest_after_colon_colon, Hcolon.
  destruct (PyStr.startswith s "Disallow"); [done|].
  destruct (PyStr.startswith s "Allow"); [done|].
  destruct (PyStr.startswith (PyStr.lower s) "sitemap"); [done|].
  destruct (PyStr.startswith (PyStr.lower s) "crawl-delay"); [done|].
  by destruct Hdir as [|[|[|]]].
Qed.

(** A line gives a new summary or the indexing error, nothing else. *)
Lemma robots_line_outcome (st : summary) (line : string) :
  (exists st', robots_line st line = Returned st')
  \/ robots_line st line = Raised IndexError.
Proof.
  unfold robots_line. cbv zeta.
  rewrite !second_field_colon, rest_after_colon_colon.
  generalize (PyStr.strip line). intros s.
  destruct (PyStr.contains ":" s);
    destruct (PyStr.startswith s "Disallow"); eauto;
    destruct (PyStr.startswith s "Allow"); eauto;
    destruct (PyStr.startswith (PyStr.lower s) "sitemap"); eauto;
    destruct (PyStr.startswith (PyStr.lower s) "crawl-delay"); eauto.
Qed.

Lemma robots_lines_raises (st : summary) (lines : list string) :
  Exists (fun line => directive (PyStr.strip line)
                      /\ ~ has_substring ":" (PyStr.strip line)) lines ->
  robots_lines st lines = Raised IndexError.
Proof.
  intros Hex. revert st.
  induction Hex as [line lines [Hdir Hcolon]|line lines _ IH]; intros st.
  - simpl. by rewrite robots_line_raises.
  - cbn [robots_lines].
    destruct (robots_line_outcome st line) as [[st' ->]| ->]; [|done].
    apply IH.
Qed.

(** Every line either keeps the colon rule or breaks it. *)
Lemma colon_rule_cases (line : string) :
  (directive (PyStr.strip line) -> has_substring ":" (PyStr.strip line))
  \/ (directive (PyStr.strip line)
      /\ ~ has_substring ":" (PyStr.strip line)).
Proof.
  unfold directive. rewrite <- !startswith_prefix, <- contains_substring.
  generalize (PyStr.strip line). intros s.
  destruct (PyStr.contains ":" s); [by left|].
  destruct (PyStr.startswith s "Disallow") eqn:E1; [right; auto|].
  destruct (PyStr.startswith s "Allow") eqn:E2; [right; auto|].
  destruct (PyStr.startswith (PyStr.lower s) "sitemap") eqn:E3;
    [right; auto|].
  destruct (PyStr.startswith (PyStr.lower s) "crawl-delay") eqn:E4;
    [right; auto|].
  left. by intros [|[|[|]]].
Qed.

(** The line loop has two outcomes and no other: the summary of the
    specification, or the indexing error at a noted line without colon. *)
Lemma analyze_lines_outcome (lines : list string) :
  analyze_lines lines = Returned (robots_spec lines)
  \/ (analyze_lines lines = Raised IndexError
      /\ Exists (fun line => directive (PyStr.strip line)
                             /\ ~ has_substring ":" (PyStr.strip line))
                lines).
Proof.
  assert (H : Forall (fun line => directive (PyStr.strip line) ->
                                  has_substring ":" (PyStr.strip line)) lines
              \/ Exists (fun line => directive (PyStr.strip line)
                            /\ ~ has_substring ":" (PyStr.strip line))
                        lines).
  { induction lines as [|line lines [IH|IH]]; [by left| |].
    - destruct (colon_rule_cases line) as [Hok|Hbad].
      + left. by constructor.
      + right. by apply Exists_cons_hd.
    - right. by apply Exists_cons_tl. }
  destruct H as [Hall|Hex].
  - left. unfold analyze_lines. rewrite robots_lines_spec by done.
    generalize (robots_spec lines). by intros [a d s [c|]].
  - right. split; [|done]. by apply robots_lines_raises.
Qed.

(** C9: the summary parser is partial.  When robots.txt is served and one
    of its lines, stripped, starts with [Disallow] or [Allow], or in any
    case with [sitemap] or [crawl-delay], and holds no colon, then
    [analyze_robots_txt] ends with the indexing error in place of a
    summary. *)
Theorem robots_parser_fails_without_colon
    http (target : string) (w : world) :
  status_code (http target) = 200 ->
  Exists (fun line => directive (PyStr.strip line)
                      /\ ~ has_substring ":" (PyStr.strip line))
         (PyStr.splitlines_go EmptyString (content (http target))) ->
  analyze_robots_txt http target w
  = (Raised IndexError, after w [Request target]).
Proof.
  intros Hst Hex.
  unfold analyze_robots_txt, requests_get, bind, emit, ret, lift. simpl.
  rewrite Hst. simpl. unfold analyze_lines.
  by rewrite robots_lines_raises.
Qed.

Lemma robots_parser_fails_without_colon_witness :
  analyze_robots_txt Demo.http ROBOTS_URL Demo.start
  = (Raised IndexError, after Demo.start [Request ROBOTS_URL]).
Proof.
  apply (robots_parser_fails_without_colon Demo.http ROBOTS_URL Demo.start).
  - vm_compute. reflexivity.
  - apply Exists_cons_tl, Exists_cons_hd. split.
    + left. by exists EmptyString.
    + apply contains_false. vm_compute. reflexivity.
Defined.

Example robots_lines_of_demo :
  PyStr.splitlines_go EmptyString (content (Demo.http ROBOTS_URL))
  = ["User-agent: *"; "Disallow"; "Allow: /"].
Proof. vm_compute. reflexivity. Qed.

(** ** Nutrition mapping *)

(** The cut at the first colon is unique. *)
Lemma first_colon_unique (a b a' b' : string) :
  a +:+ ":" +:+ b = a' +:+ ":" +:+ b' ->
  ~ has_substring ":" a -> ~ has_substring ":" a' ->
  a = a' /\ b = b'.
Proof.
  revert a'. induction a as [|c a IH]; intros [|c' a'] Heq Ha Ha'.
  - by injection Heq.
  - injection Heq as <- _. destruct Ha'. by exists EmptyString, a'.
  - injection Heq as -> _. destruct Ha. by exists EmptyString, a.
  - injection Heq as -> Heq. destruct (IH a' Heq) as [-> ->]; [| |done].
    + intros (x & y & ->). apply Ha. by exists (String c' x), y.
    + intros (x & y & ->). apply Ha'. by exists (String c' x), y.
Qed.

Lemma colon_entry_functional (text k v k' v' : string) :
  colon_entry text k v -> colon_entry text k' v' -> k = k' /\ v = v'.
Proof.
  intros (a & b & -> & Ha & -> & ->) (a' & b' & Heq & Ha' & -> & ->).
  by destruct (first_colon_unique a b a' b' Heq Ha Ha') as [-> ->].
Qed.

(** One turn of the loop: an item without colon leaves the mapping alone,
    an item with a colon writes its entry. *)
Lemma nutrition_item_cases (m : gmap string string) (text : string) :
  (~ has_substring ":" text /\ nutrition_item m text = m)
  \/ (exists k v, colon_entry text k v
                  /\ nutrition_item m text = <[k := v]> m).
Proof.
  unfold nutrition_item. pose proof (split1_cut ":" text) as H.
  destruct (PyStr.contains ":" text) eqn:E.
  - right. destruct H as (a & b & -> & -> & Ha).
    exists (PyStr.strip a), (PyStr.strip b). split; [|done].
    exists a, b. by rewrite <- contains_false.
  - left. by rewrite <- contains_false.
Qed.

Lemma parse_nutrition_snoc (texts : list string) (text : string) :
  parse_nutrition (texts ++ [text])
  = nutrition_item (parse_nutrition texts) text.
Proof. unfold parse_nutrition. by rewrite fold_left_app. Qed.

(** The last item that writes a label is either the last item or the last
    writer among the items before it. *)
Lemma last_writer_snoc (P : string -> Prop) (Q : string -> Prop)
    (texts : list string) (t : string) :
  (exists before text after,
     texts ++ [t] = before ++ text :: after /\ P text
     /\ Forall (fun x => ~ Q x) after)
  <-> P t
      \/ (~ Q t
          /\ exists before text after,
               texts = before ++ text :: after /\ P text
               /\ Forall (fun x => ~ Q x) after).
Proof.
  split.
  - intros (before & text & after & Heq & HP & Hafter).
    destruct after as [|x after _] using rev_ind.
    + apply (app_inj_tail texts before t text) in Heq as [_ ->]. by left.
    + rewrite app_comm_cons, app_assoc in Heq.
      apply app_inj_tail in Heq as [-> ->].
      apply Forall_app in Hafter as [Hafter Hx].
      right. split; [by inversion Hx|]. by exists before, text, after.
  - intros [HP|[HQ (before & text & after & -> & HP & Hafter)]].
    + exists texts, t, []. by repeat split.
    + exists before, text, (after ++ [t]). split.
      * by rewrite <- app_assoc.
      * split; [done|]. apply Forall_app. by split; [|constructor].
Qed.

(** C5: the mapping holds [v] under [k] exactly when some item reads [k]
    before its first colon and [v] after it, both trimmed, and no later
    item reads [k] before its first colon; so every item with a colon
    writes its entry, an item without colon writes nothing, and of two
    items with one label the later one decides the value. *)
Theorem nutrition_last_write_wins (texts : list string) (k v : string) :
  parse_nutrition texts !! k = Some v
  <-> exists before text after,
        texts = before ++ text :: after
        /\ colon_entry text k v
        /\ Forall (fun later => ~ exists v', colon_entry later k v') after.
Proof.
  induction texts as [|t texts IH] using rev_ind.
  - split; [done|]. intros (before & text & after & Heq & _).
    by destruct before.
  - rewrite parse_nutrition_snoc.
    rewrite (last_writer_snoc (fun text => colon_entry text k v)
               (fun later => exists v', colon_entry later k v')).
    rewrite <- IH.
    destruct (nutrition_item_cases (parse_nutrition texts) t)
      as [[Hno ->]|(k' & v' & Hentry & ->)].
    + assert (Hnot : forall x, ~ colon_entry t k x).
      { intros x (a & b & -> & _). apply Hno. by exists a, b. }
      split; [intros H; right; split; [by intros [x ?%Hnot]|done]|].
      by intros [?%Hnot|[_ ?]].
    + destruct (decide (k' = k)) as [->|Hne].
      * rewrite lookup_insert_eq. split.
        -- intros [= ->]. by left.
        -- intros [H|[Hnot _]].
           ++ by destruct (colon_entry_functional _ _ _ _ _ Hentry H)
                as [_ ->].
           ++ destruct Hnot. by exists v'.
      * rewrite lookup_insert_ne by done. split.
        -- intros H. right. split; [|done]. intros [x Hx].
           by destruct (colon_entry_functional _ _ _ _ _ Hentry Hx).
        -- intros [H|[_ H]]; [|done].
           by destruct (colon_entry_functional _ _ _ _ _ Hentry H).
Qed.

(** The nutrition example of the specification's test list. *)
Example nutrition_three_items :
  parse_nutrition ["Calories: 200"; "Fat: 10g"; "Calories: 250"]
  = <["Calories" := "250"]> (<["Fat" := "10g"]> ∅).
Proof. apply (bool_decide_unpack _). by vm_compute. Qed.

Example nutrition_first_colon_only :
  parse_nutrition ["Serving: 1 cup: 240 ml"; "no label"]
  = {["Serving" := "1 cup: 240 ml"]}.
Proof. apply (bool_decide_unpack _). by vm_compute. Qed.

(** ** Instructions *)

(** Where no direction item is blank, the instructions are the ones the
    specification words. *)
Lemma steps_agree_without_blank_items (soup : Soup.soup) :
  Forall (fun s => s <> EmptyString) (primary_steps soup) ->
  extract_steps soup = steps_spec soup.
Proof.
  unfold extract_steps, steps_spec. intros H.
  assert (List.filter Soup.nonempty (primary_steps soup)
          = primary_steps soup) as ->; [|done].
  induction H as [|s l Hs _ IH]; [done|].
  simpl. rewrite IH. by destruct s.
Qed.

(** C8: on the page whose only direction item is blank and which has an
    item of class [step], the extractor returns the blank text as the only
    instruction; the instructions the claim words are the fallback's, and
    the ingredients pass next to it does drop its blank item. *)
Theorem blank_direction_item_is_kept :
  extract_steps Demo.blank_direction_page = [EmptyString]
  /\ steps_spec Demo.blank_direction_page = ["Mix"]
  /\ extract_ingredients Demo.soup_page = ["water"; "salt"].
Proof. by vm_compute. Qed.

Example steps_primary_pass :
  extract_steps Demo.soup_page = ["Boil the water"; "Salt the water"].
Proof. by vm_compute. Qed.

Example steps_fallback_pass : extract_steps Demo.cake_page = ["Bake"].
Proof. by vm_compute. Qed.

(** ** Batch orchestrator *)

Lemma bind_returned {A B} (c : M A) (k : A -> M B) (w w' : world) (b : B) :
  bind c k w = (Returned b, w') ->
  exists a w1, c w = (Returned a, w1) /\ k a w1 = (Returned b, w').
Proof.
  unfold bind. destruct (c w) as [[a|e] w1]; [|done]. intros H.
  by exists a, w1.
Qed.

Lemma extract_recipe_data_returned
    parse_html page_source (page : string) (w w' : world) (r : recipe) :
  extract_recipe_data parse_html page_source page w = (Returned r, w') ->
  extracted parse_html page_source page r /\ files w' = files w.
Proof.
  unfold extract_recipe_data, bind, emit, lift, ret, extracted. simpl.
  destruct (page_source page) as [source|e]; [|done].
  intros [= <- <-]. split; [by exists source|done].
Qed.

Lemma filter_snoc {A} (f : A -> bool) (l : list A) (x : A) :
  List.filter f (l ++ [x])
  = if f x then List.filter f l ++ [x] else List.filter f l.
Proof.
  rewrite List.filter_app. simpl. destruct (f x); [done|].
  by rewrite app_nil_r.
Qed.

(** When the loop returns, every page was extracted, and what it holds is
    what it had plus the records with ingredients, in page order. *)
Lemma scrape_loop_returned parse_html page_source (limit idx : Z)
    (pages : list string) (acc out : list recipe) (w w' : world) :
  scrape_loop parse_html page_source limit idx pages acc w
  = (Returned out, w') ->
  exists recs,
    Forall2 (extracted parse_html page_source) pages recs
    /\ out = acc ++ List.filter (fun r => truthy (ingredients r)) recs
    /\ files w' = files w.
Proof.
  revert idx acc w. induction pages as [|page rest IH]; intros idx acc w H.
  - injection H as <- <-. exists []. by rewrite app_nil_r.
  - cbn [scrape_loop] in H.
    apply bind_returned in H as ([] & w1 & Hemit & H).
    injection Hemit as <-.
    apply bind_returned in H as (data & w2 & Hdata & H).
    apply extract_recipe_data_returned in Hdata as [Hdata Hfiles].
    apply IH in H as (recs & Hrecs & -> & Hfiles').
    exists (data :: recs). split; [by constructor|].
    split; [|by rewrite Hfiles', Hfiles].
    simpl. destruct (truthy (ingredients data)); [|done].
    by rewrite <- app_assoc.
Qed.

(** The loop returns whenever the browser loads every page. *)
Lemma scrape_loop_runs parse_html page_source (limit idx : Z)
    (pages : list string) (recs acc : list recipe) (w : world) :
  Forall2 (extracted parse_html page_source) pages recs ->
  scrape_loop parse_html page_source limit idx pages acc w
  = (Returned (acc ++ List.filter (fun r => truthy (ingredients r)) recs),
     after w (scrape_events limit idx pages)).
Proof.
  intros H. revert idx acc w.
  induction H as [|page r pages recs (source & Hsrc & ->) _ IH];
    intros idx acc w.
  - simpl. by rewrite app_nil_r, after_nil.
  - cbn [scrape_loop scrape_events]. unfold bind at 1. simpl.
    unfold bind at 1, extract_recipe_data, bind, emit, lift, ret. simpl.
    rewrite Hsrc. rewrite IH. unfold after. simpl.
    rewrite <- !app_assoc. simpl. f_equal.
    destruct (truthy _); [|done]. by rewrite <- app_assoc.
Qed.

Lemma truthy_nonempty {A} (l : list A) : truthy l = true <-> l <> [].
Proof. by destruct l. Qed.

Lemma makedirs_returned (name : string) (w w' : world) :
  Os.makedirs name w = (Returned tt, w') ->
  files w' = files w /\ trace w' = trace w.
Proof.
  unfold Os.makedirs. destruct (String.eqb name EmptyString); [done|].
  destruct (existsb _ _); [done|].
  destruct (bool_decide _); [done|]. by intros [= <-].
Qed.

Lemma dump_returned (path : string) (data : list recipe) (w w' : world) :
  Os.dump path data w = (Returned tt, w') ->
  files w' = <[path := data]> (files w).
Proof.
  unfold Os.dump. destruct (String.eqb path EmptyString); [done|].
  destruct (_ || _); [done|]. destruct (_ && _); [done|].
  by intros [= <-].
Qed.

(** The batch returns once its directory can be made, the collector
    returns, the browser loads every page and the file can be written. *)
Lemma batch_runs http parse_xml parse_html page_source
    (limit : Z) (output_path : string) (w w1 w2 w3 : world)
    (pages : list string) (recs : list recipe) :
  let out := List.filter (fun r => truthy (ingredients r)) recs in
  Os.makedirs (Os.dirname output_path) w = (Returned tt, w1) ->
  extract_all_recipe_urls http parse_xml limit w1 = (Returned pages, w2) ->
  Forall2 (extracted parse_html page_source) pages recs ->
  Os.dump output_path out (after w2 (scrape_events limit 1 pages))
  = (Returned tt, w3) ->
  batch_scrape_and_save http parse_xml parse_html page_source
    limit output_path w
  = (Returned tt, after w3 [Saved (PyList.len out) output_path]).
Proof.
  intros out Hdir Hpages Hrecs Hdump.
  unfold batch_scrape_and_save, bind. rewrite Hdir, Hpages.
  rewrite (scrape_loop_runs _ _ _ _ _ recs) by done. simpl.
  fold out. by rewrite Hdump.
Qed.

(** C3: whenever a batch run writes its output, the pages the collector
    returned were all extracted, and the collection under the output path
    is exactly the subsequence of the extracted records whose ingredients
    are not empty: records without ingredients are left out, records with
    at least one are in, in discovery order and as the extractor built
    them. *)
Theorem batch_keeps_records_with_ingredients
    http parse_xml parse_html page_source
    (limit : Z) (output_path : string) (w w' : world) :
  batch_scrape_and_save http parse_xml parse_html page_source
    limit output_path w = (Returned tt, w') ->
  exists (pages : list string) (recs out : list recipe),
    (exists w1 w2,
       extract_all_recipe_urls http parse_xml limit w1
       = (Returned pages, w2))
    /\ Forall2 (extracted parse_html page_source) pages recs
    /\ files w' !! output_path = Some out
    /\ kept_from (fun r => ingredients r <> []) recs out
    /\ Forall (fun r => ingredients r <> []) out.
Proof.
  unfold batch_scrape_and_save. intros H.
  apply bind_returned in H as ([] & w1 & Hdir & H).
  apply bind_returned in H as (pages & w2 & Hpages & H).
  apply bind_returned in H as (out & w3 & Hloop & H).
  apply bind_returned in H as ([] & w4 & Hdump & H).
  injection H as <-.
  apply scrape_loop_returned in Hloop as (recs & Hrecs & -> & _).
  apply dump_returned in Hdump.
  assert (Hkept : kept_from (fun r => ingredients r <> []) recs
                    (List.filter (fun r => truthy (ingredients r)) recs)).
  { apply filter_kept_from. intros r. apply truthy_nonempty. }
  exists pages, recs, (List.filter (fun r => truthy (ingredients r)) recs).
  split; [by exists w1, w2|]. split; [done|]. split.
  - simpl. rewrite Hdump. apply lookup_insert_eq.
  - split; [done|]. by apply kept_from_sublist in Hkept as [_ ?].
Qed.

Lemma batch_keeps_records_with_ingredients_witness :
  exists w',
    batch_scrape_and_save Demo.http Demo.parse_xml Demo.parse_html
      Demo.page_source 3 "data/recipes.json" Demo.start = (Returned tt, w')
    /\ exists (pages : list string) (recs out : list recipe),
         (exists w1 w2,
            extract_all_recipe_urls Demo.http Demo.parse_xml 3 w1
            = (Returned pages, w2))
         /\ Forall2 (extracted Demo.parse_html Demo.page_source) pages recs
         /\ files w' !! "data/recipes.json" = Some out
         /\ kept_from (fun r => ingredients r <> []) recs out
         /\ Forall (fun r => ingredients r <> []) out.
Proof.
  set (w' := snd (batch_scrape_and_save Demo.http Demo.parse_xml
                    Demo.parse_html Demo.page_source 3 "data/recipes.json"
                    Demo.start)).
  assert (H : batch_scrape_and_save Demo.http Demo.parse_xml Demo.parse_html
                Demo.page_source 3 "data/recipes.json" Demo.start
              = (Returned tt, w')).
  { vm_compute. reflexivity. }
  exists w'. split; [exact H|].
  exact (batch_keeps_records_with_ingredients _ _ _ _ _ _ _ _ H).
Defined.

(** The batch on the demonstration site: three pages are visited, the one
    without ingredients is left out of the file. *)
Example batch_output_pages :
  (map url <$>
     files (snd (batch_scrape_and_save Demo.http Demo.parse_xml
                   Demo.parse_html Demo.page_source 3 "data/recipes.json"
                   Demo.start)) !! "data/recipes.json")
  = Some ["https://x/recipes/soup/"; "https://x/recipes/cake/"].
Proof. by vm_compute. Qed.

Example batch_trace :
  trace (snd (batch_scrape_and_save Demo.http Demo.parse_xml
                Demo.parse_html Demo.page_source 3 "data/recipes.json"
                Demo.start))
  = [Request INDEX_URL;
     Request "https://x/recipe-sitemap1.xml";
     Request "https://x/recipe-sitemap2.xml";
     Request "https://x/recipe-sitemap3.xml";
     Progress 1 3 "https://x/recipes/soup/";
     Navigate "https://x/recipes/soup/";
     Progress 2 3 "https://x/recipes/empty/";
     Navigate "https://x/recipes/empty/";
     Progress 3 3 "https://x/recipes/cake/";
     Navigate "https://x/recipes/cake/";
     Saved 2 "data/recipes.json"].
Proof. by vm_compute. Qed.

(** ** Output path without directory *)

Lemma upto_last_sep_without_sep (p : string) :
  ~ has_substring "/" p -> Os.upto_last_sep p = EmptyString.
Proof.
  rewrite <- contains_false. induction p as [|c t IH]; [done|].
  rewrite (contains_char_cons "/" c t). intros [Hc Ht]%orb_false_iff.
  simpl. rewrite IH by done. unfold Os.sep. by rewrite Hc.
Qed.

Lemma dirname_without_sep (p : string) :
  ~ has_substring "/" p -> Os.dirname p = EmptyString.
Proof.
  intros H. unfold Os.dirname. by rewrite upto_last_sep_without_sep.
Qed.

(** C10: for an output path that is a bare file name, the batch fails in
    its first step, creating the directory of the empty path; the world is
    left as it was: nothing was requested, no page was visited and no file
    was written. *)
Theorem bare_filename_fails_before_collecting
    http parse_xml parse_html page_source
    (limit : Z) (output_path : string) (w : world) :
  ~ has_substring "/" output_path ->
  batch_scrape_and_save http parse_xml parse_html page_source
    limit output_path w
  = (Raised (FileNotFoundError EmptyString), w).
Proof.
  intros H. unfold batch_scrape_and_save, bind.
  by rewrite dirname_without_sep.
Qed.

Lemma bare_filename_fails_before_collecting_witness :
  batch_scrape_and_save Demo.http Demo.parse_xml Demo.parse_html
    Demo.page_source 100 "recipes.json" Demo.start
  = (Raised (FileNotFoundError EmptyString), Demo.start).
Proof.
  apply (bare_filename_fails_before_collecting Demo.http Demo.parse_xml
           Demo.parse_html Demo.page_source 100 "recipes.json" Demo.start).
  apply contains_false. vm_compute. reflexivity.
Defined.

(** ** Keywords *)

Lemma pieces_not_nil (p : ascii -> bool) (s : string) : pieces p s <> [].
Proof.
  induction s as [|c t IH]; simpl; [done|].
  destruct (p c); [|done]. by destruct (pieces p t).
Qed.

Lemma flush_filter (cur : string) (found : list string) :
  flush cur found = List.filter Soup.nonempty [cur] ++ found.
Proof. by destruct cur. Qed.

(** The scan closes a match exactly where the text is cut: what it finds
    is the run in progress joined to the first piece, and the later
    pieces, without the empty ones. *)
Lemma findall_go_pieces (s cur : string) :
  findall_go cur s
  = List.filter Soup.nonempty
      (match pieces PyStr.isword s with
       | f :: fs => (cur +:+ f) :: fs
       | [] => [cur]
       end).
Proof.
  revert cur. induction s as [|c t IH]; intros cur.
  - simpl. rewrite app_empty_r. by destruct cur.
  - cbn [findall_go pieces]. destruct (PyStr.isword c).
    + rewrite IH. pose proof (pieces_not_nil PyStr.isword t).
      destruct (pieces PyStr.isword t) as [|f fs]; [done|].
      by rewrite app_assoc_str.
    + rewrite IH, flush_filter, app_empty_r.
      pose proof (pieces_not_nil PyStr.isword t).
      destruct (pieces PyStr.isword t) as [|f fs]; [done|].
      by destruct cur.
Qed.

Lemma findall_words_runs (s : string) :
  findall_words s = runs PyStr.isword s.
Proof.
  unfold findall_words, runs. rewrite findall_go_pieces.
  pose proof (pieces_not_nil PyStr.isword s).
  by destruct (pieces PyStr.isword s).
Qed.

(** Lowercasing keeps a character in or out of the word class, so the text
    may be lowercased before or after it is cut. *)
Lemma isword_lower_char (c : ascii) :
  PyStr.isword (PyStr.lower_char c) = PyStr.isword c.
Proof. by destruct c as [[] [] [] [] [] [] [] []]. Qed.

Lemma pieces_lower (s : string) :
  pieces PyStr.isword (PyStr.lower s)
  = map PyStr.lower (pieces PyStr.isword s).
Proof.
  induction s as [|c t IH]; [done|].
  cbn [PyStr.lower pieces]. rewrite isword_lower_char, IH.
  destruct (PyStr.isword c); [|done].
  by destruct (pieces PyStr.isword t).
Qed.

Lemma filter_nonempty_lower (l : list string) :
  List.filter Soup.nonempty (map PyStr.lower l)
  = map PyStr.lower (List.filter Soup.nonempty l).
Proof.
  induction l as [|s l IH]; [done|]. simpl. rewrite IH. by destruct s.
Qed.

Lemma findall_words_lower (s : string) :
  findall_words (PyStr.lower s) = map PyStr.lower (runs PyStr.isword s).
Proof.
  rewrite findall_words_runs. unfold runs.
  by rewrite pieces_lower, filter_nonempty_lower.
Qed.

Lemma mem_elem_of (w : string) (l : list string) :
  Soup.mem w l = true <-> w ∈ l.
Proof.
  unfold Soup.mem. rewrite existsb_exists, list_elem_of_In. split.
  - intros (x & Hx & ->%String.eqb_eq). done.
  - intros H. exists w. by rewrite String.eqb_refl.
Qed.

Lemma mem_false (w : string) (l : list string) :
  Soup.mem w l = false <-> w ∉ l.
Proof. rewrite <- mem_elem_of. by destruct (Soup.mem w l). Qed.

Lemma freq_cons (w x : string) (l : list string) :
  freq w (x :: l) = if String.eqb w x then S (freq w l) else freq w l.
Proof. unfold freq. simpl. by destruct (String.eqb w x). Qed.

Lemma freq_snoc (w x : string) (l : list string) :
  freq w (l ++ [x]) = if String.eqb w x then S (freq w l) else freq w l.
Proof.
  unfold freq. rewrite List.filter_app, length_app. simpl.
  destruct (String.eqb w x); simpl; lia.
Qed.

Lemma freq_absent (w : string) (l : list string) :
  w ∉ l -> freq w l = 0%nat.
Proof.
  induction l as [|x l IH]; [done|].
  rewrite not_elem_of_cons, freq_cons. intros [Hne Hl].
  apply String.eqb_neq in Hne. rewrite Hne. auto.
Qed.

Lemma elem_of_first_seen (w : string) (l : list string) :
  w ∈ first_seen l <-> w ∈ l.
Proof.
  induction l as [|x l IH]; [done|].
  cbn [first_seen]. rewrite !elem_of_cons, list_elem_of_In, filter_In.
  rewrite <- list_elem_of_In, IH, negb_true_iff, String.eqb_neq.
  split.
  - intros [?|[? ?]]; auto.
  - intros [?|?]; [auto|].
    destruct (decide (w = x)); [auto|]. right. split; [done|congruence].
Qed.

Lemma NoDup_first_seen (l : list string) : NoDup (first_seen l).
Proof.
  induction l as [|x l IH]; [constructor|].
  cbn [first_seen]. apply NoDup_cons. split.
  - rewrite list_elem_of_In, filter_In, String.eqb_refl. by intros [_ ?].
  - by apply NoDup_ListNoDup, List.NoDup_filter, NoDup_ListNoDup.
Qed.

Lemma first_seen_snoc (l : list string) (w : string) :
  first_seen (l ++ [w])
  = first_seen l ++ (if Soup.mem w l then [] else [w]).
Proof.
  induction l as [|x l IH]; [done|].
  cbn [app first_seen]. rewrite IH, List.filter_app.
  unfold Soup.mem. cbn [existsb]. fold (Soup.mem w l).
  rewrite (String.eqb_sym w x).
  destruct (Soup.mem w l); [by rewrite orb_true_r|].
  rewrite orb_false_r. simpl. by destruct (String.eqb x w).
Qed.

(** Counting one more word touches no other word's count. *)
Lemma count_other_words (l d : list string) (w : string) :
  w ∉ d ->
  map (fun x => (x, freq x (l ++ [w]))) d = map (fun x => (x, freq x l)) d.
Proof.
  intros Hw. apply map_ext_in. intros x Hx%list_elem_of_In.
  rewrite freq_snoc.
  destruct (String.eqb x w) eqn:E; [|done].
  apply String.eqb_eq in E as ->. done.
Qed.

Lemma incr_counted (l d : list string) (w : string) :
  NoDup d ->
  PyList.incr w (map (fun x => (x, freq x l)) d)
  = if Soup.mem w d then map (fun x => (x, freq x (l ++ [w]))) d
    else map (fun x => (x, freq x l)) d ++ [(w, 1%nat)].
Proof.
  induction d as [|x d IH]; intros Hd; [done|].
  apply NoDup_cons in Hd as [Hx Hd].
  cbn [map PyList.incr]. unfold Soup.mem. cbn [existsb].
  fold (Soup.mem w d). rewrite (String.eqb_sym w x).
  destruct (String.eqb x w) eqn:E.
  - apply String.eqb_eq in E as ->. simpl.
    rewrite freq_snoc, String.eqb_refl. by rewrite count_other_words.
  - rewrite IH by done. simpl. rewrite freq_snoc, E.
    by destruct (Soup.mem w d).
Qed.

(** [Counter] lists the distinct words in the order they are first met,
    each with its frequency. *)
Lemma Counter_first_seen (l : list string) :
  PyList.Counter l = map (fun x => (x, freq x l)) (first_seen l).
Proof.
  induction l as [|w l IH] using rev_ind; [done|].
  unfold PyList.Counter in *. rewrite fold_left_app. simpl. rewrite IH.
  rewrite incr_counted by apply NoDup_first_seen.
  rewrite first_seen_snoc.
  assert (Hmem : Soup.mem w (first_seen l) = Soup.mem w l).
  { destruct (Soup.mem w l) eqn:E.
    - by apply mem_elem_of, elem_of_first_seen, mem_elem_of.
    - apply mem_false. rewrite elem_of_first_seen. by apply mem_false. }
  rewrite Hmem. destruct (Soup.mem w l) eqn:E.
  - by rewrite app_nil_r.
  - apply mem_false in E. rewrite map_app. simpl.
    rewrite count_other_words by by rewrite elem_of_first_seen.
    by rewrite freq_snoc, String.eqb_refl, freq_absent.
Qed.

Lemma first_index_cons (w x : string) (l : list string) :
  first_index w (x :: l)
  = if String.eqb x w then 0%nat else S (first_index w l).
Proof. reflexivity. Qed.

Lemma StronglySorted_filter_impl {A} (R R' : A -> A -> Prop)
    (f : A -> bool) (l : list A) :
  StronglySorted R l ->
  (forall a b, f a = true -> f b = true -> R a b -> R' a b) ->
  StronglySorted R' (List.filter f l).
Proof.
  intros Hs Himpl. induction Hs as [|a l Hs IH Ha]; [constructor|].
  simpl. destruct (f a) eqn:E; [|done].
  constructor; [done|]. apply Forall_forall.
  intros b [Hb Hfb]%list_elem_of_In%filter_In.
  apply Himpl; try done.
  rewrite Forall_forall in Ha. by apply Ha, list_elem_of_In.
Qed.

(** The distinct words come in the order of their first positions. *)
Lemma first_seen_by_index (l : list string) :
  StronglySorted (fun a b => (first_index a l < first_index b l)%nat)
                 (first_seen l).
Proof.
  induction l as [|x l IH]; [constructor|].
  cbn [first_seen]. apply StronglySorted_cons. split.
  - apply Forall_forall.
    intros y [_ Hy%negb_true_iff]%list_elem_of_In%filter_In.
    rewrite !first_index_cons, String.eqb_refl, Hy. lia.
  - eapply StronglySorted_filter_impl; [exact IH|].
    intros a b Ha%negb_true_iff Hb%negb_true_iff Hab. simpl in Hab.
    rewrite !first_index_cons, Ha, Hb. lia.
Qed.

Lemma place_elem_of (x p : string * nat) (l : list (string * nat)) :
  p ∈ PyList.place x l <-> p = x \/ p ∈ l.
Proof.
  induction l as [|y l IH]; simpl.
  - by rewrite elem_of_cons.
  - destruct (snd x <? snd y)%nat.
    + rewrite !elem_of_cons, IH. tauto.
    + by rewrite !elem_of_cons.
Qed.

Lemma sorted_desc_elem_of (p : string * nat) (c : list (string * nat)) :
  p ∈ PyList.sorted_desc c <-> p ∈ c.
Proof.
  induction c as [|x c IH]; [done|].
  unfold PyList.sorted_desc in *. simpl.
  by rewrite place_elem_of, elem_of_cons, IH.
Qed.

(** A word that was met before all the words of a ranked list takes its
    rank when [place] puts it behind the words counted strictly more
    often. *)
Lemma place_ranked (toks : list string) (w : string)
    (l : list (string * nat)) :
  Forall (fun p => snd p = freq (fst p) toks
                   /\ (first_index w toks < first_index (fst p) toks)%nat)
         l ->
  StronglySorted (ranks_before toks) (map fst l) ->
  StronglySorted (ranks_before toks)
    (map fst (PyList.place (w, freq w toks) l)).
Proof.
  induction l as [|[y n] l IH]; intros Hall Hs.
  - simpl. by repeat constructor.
  - inversion Hall as [|? ? [Hn Hidx] Hall']; subst. simpl in Hn, Hidx.
    cbn [map fst] in Hs. apply StronglySorted_cons in Hs as [Hy Hs].
    cbn [PyList.place snd]. destruct (freq w toks <? n)%nat eqn:E.
    + apply Nat.ltb_lt in E. cbn [map fst].
      apply StronglySorted_cons. split; [|by apply IH].
      apply Forall_forall. intros z Hz.
      apply list_elem_of_fmap in Hz as (p & -> & Hp).
      apply place_elem_of in Hp as [->|Hp].
      * left. simpl. lia.
      * rewrite Forall_forall in Hy. apply Hy.
        by apply list_elem_of_fmap_2.
    + apply Nat.ltb_ge in E. cbn [map fst].
      apply StronglySorted_cons. split; [|by apply StronglySorted_cons].
      assert (Hlater : forall z, z ∈ y :: map fst l ->
                (freq z toks <= freq w toks)%nat
                /\ (first_index w toks < first_index z toks)%nat).
      { intros z [->|Hz]%elem_of_cons; [lia|].
        rewrite Forall_forall in Hy. pose proof (Hy z Hz) as Hyz.
        apply list_elem_of_fmap in Hz as (p & -> & Hp).
        rewrite Forall_forall in Hall'. destruct (Hall' p Hp) as [_ ?].
        split; [|done]. destruct Hyz as [?|[? _]]; lia. }
      apply Forall_forall. intros z Hz.
      destruct (Hlater z Hz) as [Hf Hi]. unfold ranks_before. lia.
Qed.

(** Sorting the counter by count puts its words in ranking order. *)
Lemma sorted_desc_ranked (toks d : list string) :
  StronglySorted
    (fun a b => (first_index a toks < first_index b toks)%nat) d ->
  StronglySorted (ranks_before toks)
    (map fst (PyList.sorted_desc (map (fun x => (x, freq x toks)) d))).
Proof.
  induction d as [|a d IH]; intros Hd; [constructor|].
  apply StronglySorted_cons in Hd as [Ha Hd].
  unfold PyList.sorted_desc in *. cbn [map foldr].
  apply place_ranked; [|by apply IH].
  apply Forall_forall. intros p Hp.
  apply sorted_desc_elem_of, list_elem_of_fmap in Hp as (y & -> & Hy).
  split; [done|]. simpl. rewrite Forall_forall in Ha. by apply Ha.
Qed.

Lemma sorted_desc_words (toks : list string) (w : string) :
  w ∈ map fst (PyList.sorted_desc (PyList.Counter toks)) <-> w ∈ toks.
Proof.
  rewrite Counter_first_seen, <- (elem_of_first_seen w toks). split.
  - intros (p & -> & Hp)%list_elem_of_fmap.
    by apply sorted_desc_elem_of, list_elem_of_fmap in Hp as (y & -> & Hy).
  - intros Hw. apply list_elem_of_fmap.
    exists (w, freq w toks). split; [done|].
    apply sorted_desc_elem_of, list_elem_of_fmap. by exists w.
Qed.

(** C4, as the code has it: the keywords are computed from the text
    (description, a space, the instructions joined by spaces), which is
    lowercased as a whole and then cut into the maximal runs of word
    characters, which are the letters, the digits and the underscore; the
    stop words and the tokens shorter than 4 characters are dropped, the
    distinct tokens left are ranked by frequency, the more frequent first
    and among equally frequent ones the one met first, and at most the
    first 10 labels are kept, without their counts. *)
Theorem keywords_rank_word_tokens (description : string)
    (steps : list string) :
  keywords_of_lowered PyStr.isword description steps
    (extract_keywords description steps).
Proof.
  unfold keywords_of_lowered, extract_keywords, PyList.most_common.
  cbv zeta. rewrite findall_words_runs.
  fold (tokens_of_lowered PyStr.isword description steps).
  set (toks := tokens_of_lowered PyStr.isword description steps).
  exists (map fst (PyList.sorted_desc (PyList.Counter toks))).
  split; [split|].
  - apply sorted_desc_words.
  - rewrite Counter_first_seen.
    apply sorted_desc_ranked, first_seen_by_index.
  - apply fmap_take.
Qed.

(** C4 as stated, with alphanumeric runs, fails on a text with an
    underscore: the statement cuts [self_rising] in two tokens and asks for
    [self], [rising] and [flour], the code keeps [self_rising] as one
    keyword. *)
Lemma keywords_alnum_runs_fail_on_underscore :
  extract_keywords "self_rising flour" [] = ["self_rising"; "flour"]
  /\ keywords_spec PyStr.isalnum "self_rising flour" []
       ["self"; "rising"; "flour"]
  /\ ~ keywords_spec PyStr.isalnum "self_rising flour" []
         (extract_keywords "self_rising flour" []).
Proof.
  split; [by vm_compute|]. split.
  - exists ["self"; "rising"; "flour"]. split; [|done]. split.
    + intros w. by vm_compute.
    + repeat constructor; right; split; vm_compute; lia.
  - intros (r & [Hmem _] & Hkw).
    assert (H : "self_rising" ∈ r).
    { rewrite <- (take_drop 10 r), <- Hkw. apply elem_of_app. left.
      vm_compute. apply elem_of_cons. by left. }
    apply Hmem in H. vm_compute in H.
    repeat (apply elem_of_cons in H as [H|H]; [discriminate|]).
    by apply elem_of_nil in H.
Qed.

(** The keyword example of the specification's test list, and a text in
    which frequency and first occurrence both decide. *)
Example keywords_quick_brown :
  extract_keywords "The quick brown fox jumps" []
  = ["quick"; "brown"; "jumps"].
Proof. by vm_compute. Qed.

Example keywords_ranked_by_frequency :
  extract_keywords "Whisk eggs with sugar"
    ["Fold the Sugar into flour"; "Bake; serve with cream and sugar"]
  = ["sugar"; "whisk"; "eggs"; "fold"; "into"; "flour"; "bake"; "serve";
     "cream"].
Proof. by vm_compute. Qed.

(** * Further properties of the crawler *)

(** ** Trimming *)

Lemma lstrip_head (s : string) :
  PyStr.lstrip s = EmptyString
  \/ exists c t, PyStr.lstrip s = String c t /\ PyStr.isspace c = false.
Proof.
  induction s as [|c t IH]; [by left|]. simpl.
  destruct (PyStr.isspace c) eqn:E; [done|]. right. by exists c, t.
Qed.

Lemma lstrip_nonspace (c : ascii) (t : string) :
  PyStr.isspace c = false -> PyStr.lstrip (String c t) = String c t.
Proof. intros H. simpl. by rewrite H. Qed.

Lemma rstrip_keeps_head (c : ascii) (t : string) :
  PyStr.isspace c = false ->
  exists t', PyStr.rstrip (String c t) = String c t'.
Proof.
  intros H. simpl. destruct (PyStr.rstrip t) as [|d u].
  - rewrite H. by exists EmptyString.
  - by exists (String d u).
Qed.

Lemma rstrip_idem (s : string) :
  PyStr.rstrip (PyStr.rstrip s) = PyStr.rstrip s.
Proof.
  induction s as [|c t IH]; [done|]. cbn [PyStr.rstrip].
  destruct (PyStr.rstrip t) as [|d u] eqn:E.
  - destruct (PyStr.isspace c) eqn:Ec; [done|]. simpl. by rewrite Ec.
  - cbn [PyStr.rstrip]. cbn [PyStr.rstrip] in IH.
    destruct (match PyStr.rstrip u with
              | EmptyString =>
                  if PyStr.isspace d then EmptyString
                  else String d EmptyString
              | String a s0 => String d (String a s0)
              end); [done|]. by injection IH as -> ->.
Qed.

(** Stripping a stripped text changes nothing. *)
Lemma strip_trimmed (s : string) : trimmed (PyStr.strip s).
Proof.
  unfold trimmed, PyStr.strip.
  destruct (lstrip_head s) as [->|(c & t & -> & Hc)]; [done|].
  destruct (rstrip_keeps_head c t Hc) as [t' E].
  rewrite E, lstrip_nonspace by done. by rewrite <- E, rstrip_idem.
Qed.

(** What stripping leaves is a piece of the text. *)
Lemma lstrip_suffix (s : string) : exists a, s = a +:+ PyStr.lstrip s.
Proof.
  induction s as [|c t [a IH]]; [by exists EmptyString|]. simpl.
  destruct (PyStr.isspace c).
  - exists (String c a). by rewrite app_cons, <- IH.
  - by exists EmptyString.
Qed.

Lemma rstrip_prefix (s : string) : exists b, s = PyStr.rstrip s +:+ b.
Proof.
  induction s as [|c t [b IH]]; [by exists EmptyString|]. simpl.
  destruct (PyStr.rstrip t) as [|d u].
  - destruct (PyStr.isspace c).
    + by exists (String c t).
    + exists t. by rewrite app_cons.
  - exists b. by rewrite app_cons, <- IH.
Qed.

Lemma strip_substring (p s : string) :
  has_substring p (PyStr.strip s) -> has_substring p s.
Proof.
  unfold PyStr.strip. intros (a & b & E).
  destruct (lstrip_suffix s) as [x Hx].
  destruct (rstrip_prefix (PyStr.lstrip s)) as [y Hy].
  exists (x +:+ a), (b +:+ y).
  rewrite Hx at 1. rewrite Hy at 1. rewrite E.
  by rewrite !app_assoc_str.
Qed.

(** No field of a split holds the separator. *)
Lemma split_fields_free (sep : ascii) (s : string) :
  Forall (fun f => PyStr.contains (String sep EmptyString) f = false)
         (PyStr.split sep s).
Proof.
  induction s as [|c t IH]; [by repeat constructor|].
  cbn [PyStr.split]. destruct (Ascii.eqb c sep) eqn:E.
  - by constructor.
  - pose proof (split_not_nil sep t).
    destruct (PyStr.split sep t) as [|f fs]; [done|].
    inversion IH as [|? ? Hf Hfs]; subst. constructor; [|done].
    by rewrite contains_char_cons, E, Hf.
Qed.

Lemma field2_free (line : string) : ~ has_substring ":" (field2 line).
Proof.
  unfold field2. intros H%strip_substring. revert H.
  apply contains_false. rewrite nth_lookup.
  destruct (PyStr.split ":" line !! 1%nat) as [f|] eqn:E; [|done].
  pose proof (split_fields_free ":" line) as Hall.
  rewrite Forall_forall in Hall. apply Hall.
  by eapply list_elem_of_lookup_2.
Qed.

(** ** More on the robots.txt summary *)

Lemma robots_lines_app (st : summary) (l1 l2 : list string) :
  robots_lines st (l1 ++ l2)
  = match robots_lines st l1 with
    | Returned st' => robots_lines st' l2
    | Raised e => Raised e
    end.
Proof.
  revert st. induction l1 as [|line l1 IH]; intros st; [done|].
  cbn [app robots_lines]. by destruct (robots_line st line).
Qed.

Lemma robots_line_ignored (st : summary) (line : string) :
  ~ directive (PyStr.strip line) -> robots_line st line = Returned st.
Proof.
  unfold robots_line, directive. cbv zeta.
  rewrite <- !startswith_prefix.
  generalize (PyStr.strip line). intros s H.
  destruct (PyStr.startswith s "Disallow"); [tauto|].
  destruct (PyStr.startswith s "Allow"); [tauto|].
  destruct (PyStr.startswith (PyStr.lower s) "sitemap"); [tauto|].
  destruct (PyStr.startswith (PyStr.lower s) "crawl-delay"); [tauto|].
  done.
Qed.

Lemma colon_rule_all_or_some (lines : list string) :
  Forall (fun line => directive (PyStr.strip line) ->
                      has_substring ":" (PyStr.strip line)) lines
  \/ Exists (fun line => directive (PyStr.strip line)
                         /\ ~ has_substring ":" (PyStr.strip line)) lines.
Proof.
  induction lines as [|line lines [IH|IH]]; [by left| |].
  - destruct (colon_rule_cases line) as [Hok|Hbad].
    + left. by constructor.
    + right. by apply Exists_cons_hd.
  - right. by apply Exists_cons_tl.
Qed.

(** A loop that returns has met the colon rule on every line, and what it
    returns is its starting summary followed by the summary of the
    lines. *)
Lemma robots_lines_returned (st s : summary) (lines : list string) :
  robots_lines st lines = Returned s ->
  s = summary_app st (robots_spec lines).
Proof.
  intros H. destruct (colon_rule_all_or_some lines) as [Hall|Hex].
  - rewrite robots_lines_spec in H by done. by injection H as <-.
  - by rewrite robots_lines_raises in H.
Qed.

Lemma summary_app_empty (s : summary) :
  summary_app (Summary [] [] [] None) s = s.
Proof. by destruct s as [a d m [c|]]. Qed.

(** X1: a line that, stripped, starts with none of the four keywords (a
    comment, a blank line, a [User-agent] line, a keyword in another case
    than the code tests) can be put in or taken out anywhere without
    changing what the summary loop returns or raises. *)
Theorem robots_ignores_other_lines (before after : list string)
    (line : string) :
  ~ directive (PyStr.strip line) ->
  analyze_lines (before ++ line :: after) = analyze_lines (before ++ after).
Proof.
  intros H. unfold analyze_lines. rewrite !robots_lines_app.
  destruct (robots_lines _ before) as [st|e]; [|done].
  cbn [robots_lines]. by rewrite robots_line_ignored.
Qed.

Lemma robots_ignores_other_lines_witness :
  analyze_lines (["Disallow: /a"] ++ "disallow: /b" :: ["Crawl-delay: 5"])
  = analyze_lines (["Disallow: /a"] ++ ["Crawl-delay: 5"]).
Proof.
  apply (robots_ignores_other_lines ["Disallow: /a"] ["Crawl-delay: 5"]
           "disallow: /b").
  unfold directive. rewrite <- !startswith_prefix. vm_compute.
  intros [H|[H|[H|H]]]; discriminate H.
Defined.

(** X2: the summary of two runs of lines read one after the other is the
    two summaries joined: the three lists are concatenated in order and
    the crawl delay is the second one's when it has one, else the first
    one's; and once the first run fails, so does the whole. *)
Theorem robots_summary_of_joined_lines (l1 l2 : list string) :
  (forall s1 s2,
     analyze_lines l1 = Returned s1 -> analyze_lines l2 = Returned s2 ->
     analyze_lines (l1 ++ l2) = Returned (summary_app s1 s2))
  /\ (forall e,
        analyze_lines l1 = Raised e -> analyze_lines (l1 ++ l2) = Raised e).
Proof.
  unfold analyze_lines. split.
  - intros s1 s2 H1 H2. rewrite robots_lines_app, H1.
    pose proof (robots_lines_returned _ _ _ H2) as Hs2.
    rewrite summary_app_empty in Hs2. subst s2.
    destruct (colon_rule_all_or_some l2) as [Hall|Hex].
    + by rewrite robots_lines_spec.
    + by rewrite robots_lines_raises in H2.
  - intros e H1. by rewrite robots_lines_app, H1.
Qed.

Lemma robots_summary_of_joined_lines_witness :
  analyze_lines (["Allow: /"; "Crawl-delay: 1"] ++ ["Disallow: /x"])
  = Returned
      (summary_app (Summary ["/"] [] [] (Some "1"))
                   (Summary [] ["/x"] [] None)).
Proof.
  destruct (robots_summary_of_joined_lines
              ["Allow: /"; "Crawl-delay: 1"] ["Disallow: /x"]) as [H _].
  apply H; reflexivity.
Defined.

Lemma field2_clean (line : string) :
  trimmed (field2 line) /\ ~ has_substring ":" (field2 line).
Proof. split; [apply strip_trimmed|apply field2_free]. Qed.

(** X3: in a summary that the loop returns, every entry is free of
    surrounding whitespace, and the [Allowed] and [Disallowed] entries and
    the crawl delay hold no colon: of a value such as [/a:b] only what
    comes before its colon is kept.  The [Sitemaps] entries keep their
    colons. *)
Theorem robots_entries_are_clean (lines : list string) (s : summary) :
  analyze_lines lines = Returned s ->
  Forall (fun v => trimmed v /\ ~ has_substring ":" v) (Allowed s)
  /\ Forall (fun v => trimmed v /\ ~ has_substring ":" v) (Disallowed s)
  /\ Forall trimmed (Sitemaps s)
  /\ (forall d, Crawl_Delay s = Some d ->
                trimmed d /\ ~ has_substring ":" d).
Proof.
  intros H. apply robots_lines_returned in H.
  rewrite summary_app_empty in H. subst s.
  unfold robots_spec. cbv zeta.
  cbn [Allowed Disallowed Sitemaps Crawl_Delay].
  split; [|split; [|split]].
  - apply Forall_forall. intros v (l & -> & _)%list_elem_of_fmap.
    apply field2_clean.
  - apply Forall_forall. intros v (l & -> & _)%list_elem_of_fmap.
    apply field2_clean.
  - apply Forall_forall. intros v (l & -> & _)%list_elem_of_fmap.
    apply strip_trimmed.
  - intros d (l & -> & _)%last_Some_elem_of%list_elem_of_fmap.
    apply field2_clean.
Qed.

Lemma robots_entries_are_clean_witness :
  Forall (fun v => trimmed v /\ ~ has_substring ":" v)
         (Allowed (Summary ["/a"] [] ["https://x:1/s"] None))
  /\ Forall (fun v => trimmed v /\ ~ has_substring ":" v)
            (Disallowed (Summary ["/a"] [] ["https://x:1/s"] None))
  /\ Forall trimmed (Sitemaps (Summary ["/a"] [] ["https://x:1/s"] None))
  /\ (forall d,
        Crawl_Delay (Summary ["/a"] [] ["https://x:1/s"] None) = Some d ->
        trimmed d /\ ~ has_substring ":" d).
Proof.
  apply (robots_entries_are_clean
           ["User-agent: *"; "  Allow: /a:b "; "SITEMAP:https://x:1/s"]).
  reflexivity.
Defined.

(** X4: once [requests.get] has returned a response, [analyze_robots_txt]
    ends in one of three ways and no other, each with the one request
    issued and the file system untouched: the error mapping when the
    status is not 200; the summary of the lines of the body; or the
    indexing error, when the status is 200 and some noted line holds no
    colon.  What [requests.get] itself may raise before it returns is not
    part of the statement. *)
Theorem robots_report_outcomes http (target : string) (r : response)
    (w : world) :
  http target = r ->
  let lines := PyStr.splitlines_go EmptyString (content r) in
  (status_code r <> 200
   /\ analyze_robots_txt http target w
      = (Returned (FetchError (status_code r)), after w [Request target]))
  \/ (status_code r = 200
      /\ analyze_robots_txt http target w
         = (Returned (Report (robots_spec lines)), after w [Request target]))
  \/ (status_code r = 200
      /\ Exists (fun line => directive (PyStr.strip line)
                             /\ ~ has_substring ":" (PyStr.strip line))
                lines
      /\ analyze_robots_txt http target w
         = (Raised IndexError, after w [Request target])).
Proof.
  intros Hr lines.
  unfold analyze_robots_txt, requests_get, bind, emit, ret, lift. simpl.
  rewrite Hr. destruct (status_code r =? 200) eqn:E.
  - apply Z.eqb_eq in E. right. simpl. fold lines.
    destruct (analyze_lines_outcome lines) as [->|[-> Hex]].
    + by left.
    + by right.
  - apply Z.eqb_neq in E. by left.
Qed.

Lemma robots_report_outcomes_witness :
  let r := Response 404 "not found" in
  let lines := PyStr.splitlines_go EmptyString (content r) in
  (status_code r <> 200
   /\ analyze_robots_txt Demo.http "https://x/robots.txt" Demo.start
      = (Returned (FetchError (status_code r)),
         after Demo.start [Request "https://x/robots.txt"]))
  \/ (status_code r = 200
      /\ analyze_robots_txt Demo.http "https://x/robots.txt" Demo.start
         = (Returned (Report (robots_spec lines)),
            after Demo.start [Request "https://x/robots.txt"]))
  \/ (status_code r = 200
      /\ Exists (fun line => directive (PyStr.strip line)
                             /\ ~ has_substring ":" (PyStr.strip line))
                lines
      /\ analyze_robots_txt Demo.http "https://x/robots.txt" Demo.start
         = (Raised IndexError,
            after Demo.start [Request "https://x/robots.txt"])).
Proof.
  apply (robots_report_outcomes Demo.http "https://x/robots.txt"
           (Response 404 "not found") Demo.start).
  reflexivity.
Defined.

(** ** More on the URL collector *)

(** Either fetch issues its request, whatever comes of it. *)
Lemma extract_urls_from_sitemap_world http parse_xml (target : string) w :
  snd (extract_urls_from_sitemap http parse_xml target w)
  = after w [Request target].
Proof.
  unfold extract_urls_from_sitemap, requests_get, raise_for_status, bind,
    emit, ret, raise. simpl.
  by destruct ((400 <=? _) && (_ <? 600)).
Qed.

Lemma get_recipe_sitemap_links_world http parse_xml (target : string) w :
  snd (get_recipe_sitemap_links http parse_xml target w)
  = after w [Request target].
Proof.
  unfold get_recipe_sitemap_links, requests_get, raise_for_status, bind,
    emit, ret, raise. simpl.
  by destruct ((400 <=? _) && (_ <? 600)).
Qed.

Lemma extract_urls_from_sitemap_returned
    http parse_xml (target : string) (w w' : world) (urls : list string) :
  extract_urls_from_sitemap http parse_xml target w = (Returned urls, w') ->
  urls = loc_texts (parse_xml (content (http target)))
  /\ w' = after w [Request target].
Proof.
  intros H. pose proof (extract_urls_from_sitemap_world
                          http parse_xml target w) as Hw.
  rewrite H in Hw. simpl in Hw. split; [|done].
  revert H.
  unfold extract_urls_from_sitemap, requests_get, raise_for_status, bind,
    emit, ret, raise. simpl.
  destruct ((400 <=? _) && (_ <? 600)); [done|]. by intros [= <- _].
Qed.

(** The loop adds recipe pages only. *)
Lemma collect_loop_pages http parse_xml (limit : Z)
    (sitemaps acc out : list string) (w w' : world) :
  collect_loop http parse_xml limit sitemaps acc w = (Returned out, w') ->
  Forall recipe_page acc -> Forall recipe_page out.
Proof.
  revert acc w. induction sitemaps as [|s rest IH]; intros acc w H Hacc.
  - by injection H as <- _.
  - cbn [collect_loop] in H.
    apply bind_returned in H as (urls & w1 & Hurls & H).
    apply extract_urls_from_sitemap_returned in Hurls as [-> ->].
    assert (Hnew : Forall recipe_page
              (acc ++ List.filter is_recipe_url
                        (loc_texts (parse_xml (content (http s)))))).
    { apply Forall_app. split; [done|]. apply Forall_forall.
      intros u [_ Hu]%list_elem_of_In%filter_In.
      by apply is_recipe_url_page. }
    destruct (_ >=? _).
    + by injection H as <- _.
    + by eapply IH.
Qed.

Lemma slice_to_sublist {A} (l : list A) (n : Z) :
  PyList.slice_to l n `prefix_of` l.
Proof. unfold PyList.slice_to. destruct (0 <=? n); apply prefix_take. Qed.

(** X5: whatever the server holds and whatever the limit, every location
    that the collector returns contains [/recipes/] and ends in none of
    the three image suffixes; and for a limit that is not negative it
    returns at most [limit] locations. *)
Theorem collector_returns_recipe_pages
    http parse_xml (limit : Z) (w w' : world) (urls : list string) :
  extract_all_recipe_urls http parse_xml limit w = (Returned urls, w') ->
  Forall recipe_page urls /\ (0 <= limit -> PyList.len urls <= limit).
Proof.
  unfold extract_all_recipe_urls. intros H.
  apply bind_returned in H as (links & w1 & _ & H).
  apply bind_returned in H as (acc & w2 & Hloop & H).
  injection H as <- _.
  apply collect_loop_pages in Hloop; [|constructor]. split.
  - destruct (slice_to_sublist acc limit) as [rest E].
    rewrite E in Hloop. by apply Forall_app in Hloop as [? _].
  - intros Hlimit. rewrite slice_to_positive by done.
    unfold PyList.len. rewrite length_take. lia.
Qed.

Lemma collector_returns_recipe_pages_witness :
  Forall recipe_page
    ["https://x/recipes/soup/"; "https://x/recipes/empty/"]
  /\ (0 <= 2 ->
      PyList.len ["https://x/recipes/soup/"; "https://x/recipes/empty/"]
      <= 2).
Proof.
  apply (collector_returns_recipe_pages Demo.http Demo.parse_xml 2
           Demo.start
           (snd (extract_all_recipe_urls Demo.http Demo.parse_xml 2
                   Demo.start))).
  vm_compute. reflexivity.
Defined.

Lemma collect_loop_world http parse_xml (limit : Z)
    (sitemaps acc : list string) (w : world) :
  exists visited,
    visited `prefix_of` sitemaps
    /\ snd (collect_loop http parse_xml limit sitemaps acc w)
       = after w (map Request visited).
Proof.
  revert acc w. induction sitemaps as [|s rest IH]; intros acc w.
  - exists []. split; [done|]. simpl. by rewrite after_nil.
  - cbn [collect_loop]. unfold bind at 1.
    pose proof (extract_urls_from_sitemap_world http parse_xml s w) as Hw.
    destruct (extract_urls_from_sitemap http parse_xml s w) as [[urls|e] w1];
      simpl in Hw; subst w1.
    + destruct (_ >=? _).
      * exists [s]. split; [by apply prefix_cons, prefix_nil|done].
      * destruct (IH (acc ++ List.filter is_recipe_url urls)
                     (after w [Request s])) as (visited & Hpre & ->).
        exists (s :: visited). split; [by apply prefix_cons|].
        by rewrite after_after.
    + exists [s]. split; [by apply prefix_cons, prefix_nil|done].
Qed.

(** X6: whether the collector returns or raises on a failing status, one
    call issues the request for the index and then at most three more, one
    for each child sitemap visited, in the order of the links the resolver
    returned; a link that the index lists twice among the first three is
    requested twice.  The call does nothing else to the world: no file or
    directory is touched. *)
Theorem collector_request_budget http parse_xml (limit : Z) (w : world) :
  exists visited,
    snd (extract_all_recipe_urls http parse_xml limit w)
    = after w (Request INDEX_URL :: map Request visited)
    /\ (length visited <= 3)%nat
    /\ (forall links w1,
          get_recipe_sitemap_links http parse_xml INDEX_URL w
          = (Returned links, w1) ->
          visited `prefix_of` links).
Proof.
  unfold extract_all_recipe_urls, bind.
  pose proof (get_recipe_sitemap_links_world http parse_xml INDEX_URL w)
    as Hw.
  destruct (get_recipe_sitemap_links http parse_xml INDEX_URL w)
    as [[links|e] w1]; simpl in Hw; subst w1.
  - destruct (collect_loop_world http parse_xml limit (take 3 links) []
                (after w [Request INDEX_URL])) as (visited & Hpre & Hw).
    exists visited. split; [|split].
    + destruct (collect_loop _ _ _ _ _ _) as [[acc|e] w2]; simpl in *;
        subst w2; by rewrite after_after.
    + apply prefix_length in Hpre. rewrite length_take in Hpre. lia.
    + intros ? ? [= <- _]. etrans; [done|apply prefix_take].
  - exists []. split; [done|]. split; [simpl; lia|]. by intros.
Qed.

(** An index that lists one child sitemap twice has it requested
    twice. *)
Example collector_requests_a_repeated_link_twice :
  trace
    (snd (extract_all_recipe_urls
            (fun _ => Response 200 "any")
            (fun _ =>
               [Demo.loc "https://x/recipe-sitemap2.xml";
                Demo.loc "https://x/recipe-sitemap2.xml"])
            100 Demo.start))
  = [Request INDEX_URL;
     Request "https://x/recipe-sitemap2.xml";
     Request "https://x/recipe-sitemap2.xml"].
Proof. by vm_compute. Qed.

(** X7: the collector at its bounds.  With no recipe sitemap in the index
    it returns the empty list after the one request, whatever the limit.
    With a limit of zero or less it still fetches the first child sitemap,
    stops there, and returns what the slice leaves of that sitemap's
    recipe pages: nothing for a limit of zero, all but the last [-limit]
    for a negative one. *)
Theorem collector_at_its_bounds
    http parse_xml (limit : Z) (w w1 : world) (links : list string) :
  get_recipe_sitemap_links http parse_xml INDEX_URL w
  = (Returned links, w1) ->
  (links = [] ->
   extract_all_recipe_urls http parse_xml limit w = (Returned [], w1))
  /\ (forall s rest,
        links = s :: rest -> limit <= 0 ->
        ~ error_status (status_code (http s)) ->
        let found :=
          List.filter is_recipe_url
            (loc_texts (parse_xml (content (http s)))) in
        extract_all_recipe_urls http parse_xml limit w
        = (Returned
             (if limit =? 0 then []
              else take (length found - Z.to_nat (- limit))%nat found),
           after w1 [Request s])).
Proof.
  intros Hlinks. unfold extract_all_recipe_urls, bind. rewrite Hlinks.
  split.
  - intros ->. simpl. unfold ret, PyList.slice_to.
    by destruct (0 <=? limit); rewrite take_nil.
  - intros s rest -> Hlimit Hs. cbv zeta. cbn [take collect_loop].
    unfold bind. rewrite extract_urls_from_sitemap_ok by done.
    set (found := List.filter is_recipe_url
                    (loc_texts (parse_xml (content (http s))))).
    simpl.
    assert (E : (PyList.len found >=? limit) = true).
    { apply Z.geb_le. unfold PyList.len. lia. }
    rewrite E. unfold ret, PyList.slice_to. f_equal. f_equal.
    destruct (limit =? 0) eqn:E0.
    + apply Z.eqb_eq in E0 as ->. done.
    + apply Z.eqb_neq in E0.
      assert ((0 <=? limit) = false) as -> by (apply Z.leb_gt; lia).
      done.
Qed.

Lemma collector_at_its_bounds_witness :
  extract_all_recipe_urls Demo.http Demo.parse_xml 0 Demo.start
  = (Returned [],
     after (after Demo.start [Request INDEX_URL])
       [Request "https://x/recipe-sitemap1.xml"]).
Proof.
  destruct (collector_at_its_bounds Demo.http Demo.parse_xml 0 Demo.start
              (after Demo.start [Request INDEX_URL])
              ["https://x/recipe-sitemap1.xml";
               "https://x/recipe-sitemap2.xml";
               "https://x/recipe-sitemap3.xml";
               "https://x/recipe-sitemap4.xml"]) as [_ H].
  { vm_compute. reflexivity. }
  apply (H "https://x/recipe-sitemap1.xml"
           ["https://x/recipe-sitemap2.xml";
            "https://x/recipe-sitemap3.xml";
            "https://x/recipe-sitemap4.xml"]).
  - reflexivity.
  - lia.
  - compute_status.
Defined.

(** Under two limits the loop under the smaller one holds a prefix of what
    the loop under the larger one holds, and when it holds less, the
    smaller limit is reached. *)
Lemma collect_loop_two_limits http parse_xml (l1 l2 : Z)
    (sitemaps acc : list string) (w : world) :
  l1 <= l2 ->
  Forall (fun s => ~ error_status (status_code (http s))) sitemaps ->
  exists g1 more,
    fst (collect_loop http parse_xml l1 sitemaps acc w) = Returned g1
    /\ fst (collect_loop http parse_xml l2 sitemaps acc w)
       = Returned (g1 ++ more)
    /\ (more = [] \/ l1 <= PyList.len g1).
Proof.
  intros Hle. revert acc w.
  induction sitemaps as [|s rest IH]; intros acc w Hok.
  - exists acc, []. simpl. by rewrite app_nil_r; auto.
  - inversion Hok as [|? ? Hs Hrest]; subst.
    cbn [collect_loop]. unfold bind.
    rewrite extract_urls_from_sitemap_ok by done.
    set (acc' := acc ++ List.filter is_recipe_url
                          (loc_texts (parse_xml (content (http s))))).
    destruct (PyList.len acc' >=? l1) eqn:E1.
    + apply Z.geb_le in E1. destruct (PyList.len acc' >=? l2) eqn:E2.
      * exists acc', []. simpl. by rewrite app_nil_r; auto.
      * destruct (collect_loop_prefix http parse_xml l2 rest acc'
                    (after w [Request s]) Hrest) as (n & _ & Hrun & _).
        eexists acc', _. rewrite Hrun. simpl. auto.
    + rewrite Z.geb_leb in E1. apply Z.leb_gt in E1.
      assert (E2 : (PyList.len acc' >=? l2) = false).
      { rewrite Z.geb_leb. apply Z.leb_gt. lia. }
      rewrite E2. by apply IH.
Qed.

(** X8: asking for fewer locations gives a prefix of asking for more:
    with the index and the first three child sitemaps served, the
    collector's answer for a positive limit is the first [l1] locations of
    its answer for any larger limit. *)
Theorem collector_prefix_in_limit
    http parse_xml (l1 l2 : Z) (w w1 : world) (links : list string) :
  0 < l1 <= l2 ->
  get_recipe_sitemap_links http parse_xml INDEX_URL w
  = (Returned links, w1) ->
  Forall (fun s => ~ error_status (status_code (http s))) (take 3 links) ->
  exists urls1 urls2,
    fst (extract_all_recipe_urls http parse_xml l1 w) = Returned urls1
    /\ fst (extract_all_recipe_urls http parse_xml l2 w) = Returned urls2
    /\ urls1 = take (Z.to_nat l1) urls2.
Proof.
  intros [H1 H12] Hlinks Hok.
  destruct (collect_loop_two_limits http parse_xml l1 l2 (take 3 links) []
              w1 H12 Hok) as (g1 & more & Hg1 & Hg2 & Hmore).
  unfold extract_all_recipe_urls, bind. rewrite Hlinks.
  destruct (collect_loop http parse_xml l1 _ _ _) as [o1 w2].
  destruct (collect_loop http parse_xml l2 _ _ _) as [o2 w3].
  simpl in Hg1, Hg2. subst o1 o2. simpl.
  rewrite !slice_to_positive by lia.
  eexists _, _. split; [done|]. split; [done|].
  rewrite take_take. replace (Z.to_nat l1 `min` Z.to_nat l2)%nat
    with (Z.to_nat l1) by lia.
  destruct Hmore as [->|Hlen].
  - by rewrite app_nil_r.
  - rewrite take_app_le; [done|]. unfold PyList.len in Hlen. lia.
Qed.

Lemma collector_prefix_in_limit_witness :
  exists urls1 urls2,
    fst (extract_all_recipe_urls Demo.http Demo.parse_xml 2 Demo.start)
    = Returned urls1
    /\ fst (extract_all_recipe_urls Demo.http Demo.parse_xml 5 Demo.start)
       = Returned urls2
    /\ urls1 = take (Z.to_nat 2) urls2.
Proof.
  apply (collector_prefix_in_limit Demo.http Demo.parse_xml 2 5 Demo.start
           (after Demo.start [Request INDEX_URL])
           ["https://x/recipe-sitemap1.xml";
            "https://x/recipe-sitemap2.xml";
            "https://x/recipe-sitemap3.xml";
            "https://x/recipe-sitemap4.xml"]).
  - lia.
  - vm_compute. reflexivity.
  - vm_compute. repeat constructor; intros [H _]; apply H; reflexivity.
Defined.

(** ** The sitemap explorer *)

(** X9: once [requests.get] has returned a response, [get_all_sitemaps]
    on status 200 prints nothing and returns the texts of all the [loc]
    elements of the index, in document order, and the resolver's links for
    the same index are exactly the subsequence of that list marked
    [recipe-sitemap]; on any other status it prints the status and returns
    the empty list, and it does so also on the statuses 400 to 599, on
    which the resolver raises.  Either way it issues one request. *)
Theorem explorer_lists_what_the_resolver_filters
    http parse_xml (index_url : string) (r : response)
    (stdout : list console) (w : world) :
  http index_url = r ->
  let sitemaps := loc_texts (parse_xml (content r)) in
  (status_code r = 200 ->
   get_all_sitemaps http parse_xml index_url stdout w
   = (Returned (sitemaps, stdout), after w [Request index_url])
   /\ exists links,
        get_recipe_sitemap_links http parse_xml index_url w
        = (Returned links, after w [Request index_url])
        /\ kept_from (has_substring "recipe-sitemap") sitemaps links)
  /\ (status_code r <> 200 ->
      get_all_sitemaps http parse_xml index_url stdout w
      = (Returned ([], stdout ++ [FailedToLoad (status_code r)]),
         after w [Request index_url]))
  /\ (error_status (status_code r) ->
      get_recipe_sitemap_links http parse_xml index_url w
      = (Raised (HTTPError (status_code r)), after w [Request index_url])).
Proof.
  intros Hr sitemaps. subst r.
  unfold get_all_sitemaps, requests_get, bind, emit, ret. simpl.
  split; [|split].
  - intros E. rewrite E. simpl. split; [done|]. eexists. split.
    + apply get_recipe_sitemap_links_ok. rewrite E.
      unfold error_status. lia.
    + apply filter_kept_from. intros u. apply contains_substring.
  - intros E. apply Z.eqb_neq in E. by rewrite E.
  - intros E. by apply get_recipe_sitemap_links_error.
Qed.

Lemma explorer_lists_what_the_resolver_filters_witness :
  (get_all_sitemaps Demo.http Demo.parse_xml INDEX_URL [] Demo.start
   = (Returned (loc_texts (Demo.parse_xml "index"), []),
      after Demo.start [Request INDEX_URL])
   /\ exists links,
        get_recipe_sitemap_links Demo.http Demo.parse_xml INDEX_URL
          Demo.start
        = (Returned links, after Demo.start [Request INDEX_URL])
        /\ kept_from (has_substring "recipe-sitemap")
             (loc_texts (Demo.parse_xml "index")) links)
  /\ get_all_sitemaps Demo.http Demo.parse_xml "https://x/none.xml" []
       Demo.start
     = (Returned ([], [] ++ [FailedToLoad 404]),
        after Demo.start [Request "https://x/none.xml"])
  /\ get_recipe_sitemap_links Demo.http Demo.parse_xml "https://x/none.xml"
       Demo.start
     = (Raised (HTTPError 404),
        after Demo.start [Request "https://x/none.xml"]).
Proof.
  split; [|split].
  - destruct (explorer_lists_what_the_resolver_filters Demo.http
                Demo.parse_xml INDEX_URL (Response 200 "index") []
                Demo.start eq_refl) as [H _].
    apply H. reflexivity.
  - destruct (explorer_lists_what_the_resolver_filters Demo.http
                Demo.parse_xml "https://x/none.xml"
                (Response 404 "not found") [] Demo.start eq_refl)
      as (_ & H & _).
    apply H. simpl. lia.
  - destruct (explorer_lists_what_the_resolver_filters Demo.http
                Demo.parse_xml "https://x/none.xml"
                (Response 404 "not found") [] Demo.start eq_refl)
      as (_ & _ & H).
    apply H. unfold error_status. simpl. lia.
Defined.

(** ** More on the keywords *)

Lemma lower_char_idem (c : ascii) :
  PyStr.lower_char (PyStr.lower_char c) = PyStr.lower_char c.
Proof. by destruct c as [[] [] [] [] [] [] [] []]. Qed.

Lemma lower_idem (s : string) : PyStr.lower (PyStr.lower s) = PyStr.lower s.
Proof.
  induction s as [|c t IH]; [done|]. simpl. by rewrite lower_char_idem, IH.
Qed.

Lemma lower_app (a b : string) :
  PyStr.lower (a +:+ b) = PyStr.lower a +:+ PyStr.lower b.
Proof.
  induction a as [|c a IH]; [done|]. rewrite app_cons. simpl.
  by rewrite IH.
Qed.

Lemma lower_join (sep : string) (l : list string) :
  PyStr.lower (PyStr.join sep l)
  = PyStr.join (PyStr.lower sep) (map PyStr.lower l).
Proof.
  induction l as [|x [|y l] IH]; [done..|].
  cbn [PyStr.join map] in *. by rewrite !lower_app, IH.
Qed.

Lemma all_chars_lower (s : string) :
  all_chars PyStr.isword (PyStr.lower s) = all_chars PyStr.isword s.
Proof.
  induction s as [|c t IH]; [done|]. simpl.
  by rewrite isword_lower_char, IH.
Qed.

Lemma pieces_all_chars (p : ascii -> bool) (s : string) :
  Forall (fun f => all_chars p f = true) (pieces p s).
Proof.
  induction s as [|c t IH]; [by repeat constructor|].
  cbn [pieces]. destruct (p c) eqn:E; [|by constructor].
  pose proof (pieces_not_nil p t).
  destruct (pieces p t) as [|f fs]; [done|].
  inversion IH as [|? ? Hf Hfs]; subst. constructor; [|done].
  simpl. by rewrite E, Hf.
Qed.

Lemma place_Permutation (x : string * nat) (l : list (string * nat)) :
  PyList.place x l ≡ₚ x :: l.
Proof.
  induction l as [|y l IH]; [done|]. simpl.
  destruct (snd x <? snd y)%nat; [|done].
  rewrite IH. apply Permutation_swap.
Qed.

Lemma sorted_desc_Permutation (c : list (string * nat)) :
  PyList.sorted_desc c ≡ₚ c.
Proof.
  induction c as [|x c IH]; [done|]. unfold PyList.sorted_desc in *.
  simpl. by rewrite place_Permutation, IH.
Qed.

(** The words the counter is fed, seen from a keyword. *)
Lemma keyword_is_token (description : string) (steps : list string)
    (k : string) :
  k ∈ extract_keywords description steps ->
  k ∈ tokens_spec PyStr.isword description steps.
Proof.
  unfold extract_keywords, PyList.most_common. cbv zeta.
  rewrite findall_words_lower.
  fold (tokens_spec PyStr.isword description steps).
  intros H. apply sorted_desc_words.
  rewrite <- (take_drop 10 (PyList.sorted_desc _)), map_app.
  apply elem_of_app. by left.
Qed.

(** X10: the keywords of any text are at most 10, no keyword occurs
    twice, and every keyword has at least 4 characters, is no stop word,
    is in lower case and consists of letters, digits and underscores. *)
Theorem keywords_are_clean (description : string) (steps : list string) :
  let kws := extract_keywords description steps in
  (length kws <= 10)%nat
  /\ NoDup kws
  /\ Forall (fun k => (3 < String.length k)%nat
                      /\ (k ∉ stopwords)
                      /\ PyStr.lower k = k
                      /\ all_chars PyStr.isword k = true) kws.
Proof.
  intros kws. split; [|split].
  - unfold kws, extract_keywords, PyList.most_common. cbv zeta.
    rewrite length_map, length_take. lia.
  - unfold kws, extract_keywords, PyList.most_common. cbv zeta.
    set (c := PyList.Counter _).
    assert (Hall : NoDup (map fst (PyList.sorted_desc c))).
    { rewrite sorted_desc_Permutation. unfold c.
      rewrite Counter_first_seen, map_map. simpl. rewrite map_id.
      apply NoDup_first_seen. }
    rewrite <- (take_drop 10 (PyList.sorted_desc c)), map_app in Hall.
    by apply NoDup_app in Hall as [? _].
  - apply Forall_forall. intros k Hk%keyword_is_token.
    unfold tokens_spec in Hk.
    apply list_elem_of_In, filter_In in Hk as [Hk Hkeep].
    apply list_elem_of_In, list_elem_of_fmap in Hk as (x & -> & Hx).
    apply andb_true_iff in Hkeep as [Hstop Hlen].
    apply negb_true_iff, mem_false in Hstop. apply Nat.ltb_lt in Hlen.
    split; [done|]. split; [done|]. split; [apply lower_idem|].
    rewrite all_chars_lower.
    apply list_elem_of_In, filter_In in Hx as [Hx _].
    pose proof (pieces_all_chars PyStr.isword
                  (description +:+ " " +:+ PyStr.join " " steps)) as Hall.
    rewrite Forall_forall in Hall. by apply Hall, list_elem_of_In.
Qed.

(** X11: the keywords do not depend on letter case: two descriptions that
    agree once lowercased, with instructions that agree once lowercased,
    have the same keywords. *)
Theorem keywords_ignore_case (d1 d2 : string) (steps1 steps2 : list string) :
  PyStr.lower d1 = PyStr.lower d2 ->
  map PyStr.lower steps1 = map PyStr.lower steps2 ->
  extract_keywords d1 steps1 = extract_keywords d2 steps2.
Proof.
  intros Hd Hs. unfold extract_keywords. cbv zeta.
  by rewrite !lower_app, !lower_join, Hd, Hs.
Qed.

Lemma keywords_ignore_case_witness :
  extract_keywords "Creamy SOUP" ["Stir the Soup"]
  = extract_keywords "creamy soup" ["stir the soup"].
Proof.
  apply (keywords_ignore_case "Creamy SOUP" "creamy soup"
           ["Stir the Soup"] ["stir the soup"]); reflexivity.
Defined.

Lemma keywords_of_sentinel (steps : list string) :
  extract_keywords "N/A" steps = extract_keywords EmptyString steps.
Proof. reflexivity. Qed.

(** X12: a page without description meta element gets the sentinel [N/A]
    as its description, and the sentinel adds no keyword: the keywords are
    those of the instructions alone. *)
Theorem missing_description_adds_no_keyword (page : string)
    (soup : Soup.soup) :
  Soup.select_one [Soup.tag_attr "meta" "name" "description"] soup = None ->
  description (recipe_of_soup page soup) = "N/A"
  /\ keywords (recipe_of_soup page soup)
     = extract_keywords EmptyString (instructions (recipe_of_soup page soup)).
Proof.
  intros H. unfold recipe_of_soup, safe_get. cbv zeta.
  cbn [description keywords instructions]. rewrite H.
  split; [done|]. apply keywords_of_sentinel.
Qed.

Lemma missing_description_adds_no_keyword_witness :
  description (recipe_of_soup "https://x/recipes/soup/" Demo.soup_page)
  = "N/A"
  /\ keywords (recipe_of_soup "https://x/recipes/soup/" Demo.soup_page)
     = extract_keywords EmptyString
         (instructions
            (recipe_of_soup "https://x/recipes/soup/" Demo.soup_page)).
Proof.
  apply (missing_description_adds_no_keyword "https://x/recipes/soup/"
           Demo.soup_page).
  vm_compute. reflexivity.
Defined.

(** ** More on the nutrition mapping *)

(** What an item writes does not depend on the mapping it is written
    to. *)
Lemma nutrition_item_uniform (text : string) :
  (~ has_substring ":" text /\ forall m, nutrition_item m text = m)
  \/ (exists k v, colon_entry text k v
                  /\ forall m, nutrition_item m text = <[k := v]> m).
Proof.
  unfold nutrition_item. pose proof (split1_cut ":" text) as H.
  destruct (PyStr.contains ":" text) eqn:E.
  - right. destruct H as (a & b & -> & -> & Ha).
    exists (PyStr.strip a), (PyStr.strip b). split; [|done].
    exists a, b. by rewrite <- contains_false.
  - left. by rewrite <- contains_false.
Qed.

(** X13: parsing two runs of items one after the other gives the mapping
    of the second run, completed by the entries of the first run whose
    labels the second run does not write. *)
Theorem nutrition_of_joined_items (first second : list string) :
  parse_nutrition (first ++ second)
  = parse_nutrition second ∪ parse_nutrition first.
Proof.
  induction second as [|t second IH] using rev_ind.
  - rewrite app_nil_r. unfold parse_nutrition at 2. simpl.
    by rewrite (left_id_L ∅ (∪)).
  - rewrite app_assoc, !parse_nutrition_snoc, IH.
    destruct (nutrition_item_uniform t) as [[_ H]|(k & v & _ & H)].
    + by rewrite !H.
    + by rewrite !H, insert_union_l.
Qed.

(** X14: every label of the mapping is free of surrounding whitespace and
    holds no colon, every value is free of surrounding whitespace, and the
    mapping is empty exactly when no item holds a colon. *)
Theorem nutrition_entries_are_clean (texts : list string) :
  (forall k v,
     parse_nutrition texts !! k = Some v ->
     trimmed k /\ trimmed v /\ ~ has_substring ":" k)
  /\ (parse_nutrition texts = ∅
      <-> Forall (fun text => ~ has_substring ":" text) texts).
Proof.
  induction texts as [|t texts [IH1 IH2]] using rev_ind.
  - split; [done|]. split; [by constructor|done].
  - rewrite parse_nutrition_snoc, Forall_app, Forall_singleton.
    destruct (nutrition_item_uniform t)
      as [[Hno H]|(k' & v' & (a & b & -> & Ha & -> & ->) & H)];
      rewrite H.
    + split; [done|]. rewrite IH2. tauto.
    + split.
      * intros k v. destruct (decide (PyStr.strip a = k)) as [<-|Hne].
        -- rewrite lookup_insert_eq. intros [= <-].
           split; [apply strip_trimmed|]. split; [apply strip_trimmed|].
           by intros ?%strip_substring.
        -- rewrite lookup_insert_ne by done. apply IH1.
      * split; [by intros ?%insert_non_empty|].
        intros [_ Hno]. destruct Hno. by exists a, b.
Qed.

(** ** Text fields of a record *)

Lemma length_app_str (a b : string) :
  String.length (a +:+ b) = (String.length a + String.length b)%nat.
Proof.
  induction a as [|c a IH]; [done|]. rewrite app_cons. simpl. by rewrite IH.
Qed.

Lemma lstrip_length (s : string) :
  (String.length (PyStr.lstrip s) <= String.length s)%nat.
Proof.
  destruct (lstrip_suffix s) as [a E]. rewrite E at 2.
  rewrite length_app_str. lia.
Qed.

Lemma rstrip_length (s : string) :
  (String.length (PyStr.rstrip s) <= String.length s)%nat.
Proof.
  destruct (rstrip_prefix s) as [b E]. rewrite E at 2.
  rewrite length_app_str. lia.
Qed.

(** A stripped text that is not empty begins and ends with a character
    that is no whitespace. *)
Lemma trimmed_ends (s : string) :
  trimmed s -> s <> EmptyString ->
  exists c t, s = String c t /\ PyStr.isspace c = false
              /\ PyStr.rstrip s = s.
Proof.
  unfold trimmed, PyStr.strip. destruct s as [|c t]; [done|].
  intros H _. exists c, t. cbn [PyStr.lstrip] in H.
  destruct (PyStr.isspace c) eqn:E; [|done].
  pose proof (rstrip_length (PyStr.lstrip t)) as H1.
  pose proof (lstrip_length t) as H2.
  rewrite H in H1. simpl in H1. lia.
Qed.

Lemma rstrip_app (a b : string) :
  PyStr.rstrip b <> EmptyString ->
  PyStr.rstrip (a +:+ b) = a +:+ PyStr.rstrip b.
Proof.
  intros Hb. induction a as [|c a IH]; [done|].
  rewrite !app_cons. cbn [PyStr.rstrip]. rewrite IH.
  destruct (a +:+ PyStr.rstrip b) as [|d u] eqn:E; [|done].
  destruct a; [|done]. by rewrite app_empty_l in E.
Qed.

Lemma trimmed_app (a b : string) :
  trimmed a -> a <> EmptyString -> trimmed b -> b <> EmptyString ->
  trimmed (a +:+ b) /\ a +:+ b <> EmptyString.
Proof.
  intros Ha Hna Hb Hnb.
  destruct (trimmed_ends a Ha Hna) as (c & t & -> & Hc & _).
  destruct (trimmed_ends b Hb Hnb) as (_ & _ & _ & _ & Hrb).
  split; [|by rewrite app_cons].
  unfold trimmed, PyStr.strip. rewrite app_cons, lstrip_nonspace by done.
  rewrite <- app_cons, rstrip_app; by rewrite Hrb.
Qed.

Lemma join_trimmed (pieces : list string) :
  Forall (fun p => p <> EmptyString /\ trimmed p) pieces ->
  trimmed (PyStr.join "" pieces)
  /\ (pieces <> [] -> PyStr.join "" pieces <> EmptyString).
Proof.
  induction pieces as [|x [|y rest] IH]; intros Hall.
  - by split.
  - inversion Hall as [|? ? [Hx Htx] _]; subst. by split.
  - inversion Hall as [|? ? [Hx Htx] Hrest]; subst.
    destruct (IH Hrest) as [Ht Hn].
    change (PyStr.join "" (x :: y :: rest))
      with (x +:+ PyStr.join "" (y :: rest)).
    destruct (trimmed_app x (PyStr.join "" (y :: rest))) as [? ?]; auto.
Qed.

(** [get_text(strip=True)] gives a text without surrounding
    whitespace. *)
Lemma get_text_strip_trimmed (n : Soup.node) :
  trimmed (Soup.get_text_strip n).
Proof.
  unfold Soup.get_text_strip. apply join_trimmed, Forall_forall.
  intros p [Hp Hne]%list_elem_of_In%filter_In.
  apply list_elem_of_In, list_elem_of_fmap in Hp as (x & -> & _).
  split; [|apply strip_trimmed]. by destruct (PyStr.strip x).
Qed.

Lemma safe_get_trimmed (soup : Soup.soup) (selector : list Soup.compound)
    (attr : option string) :
  trimmed (safe_get soup selector attr).
Proof.
  unfold safe_get. destruct (Soup.select_one selector soup) as [el|];
    [|done].
  destruct attr as [a|]; [|apply get_text_strip_trimmed].
  destruct (Soup.get el a); [apply strip_trimmed|].
  apply get_text_strip_trimmed.
Qed.

Lemma map_get_text_strip_trimmed (l : list Soup.node) :
  Forall trimmed (map Soup.get_text_strip l).
Proof.
  apply Forall_forall. intros s (n & -> & _)%list_elem_of_fmap.
  apply get_text_strip_trimmed.
Qed.

(** X15: in every record the extractor builds, the title, the description,
    the rating and the three times, every ingredient, every instruction
    and every category are free of surrounding whitespace, and no
    ingredient is empty. *)
Theorem record_texts_are_trimmed (page : string) (soup : Soup.soup) :
  let r := recipe_of_soup page soup in
  trimmed (title r) /\ trimmed (description r) /\ trimmed (rating r)
  /\ trimmed (prep_time r) /\ trimmed (cook_time r)
  /\ trimmed (total_time r)
  /\ Forall (fun s => s <> EmptyString /\ trimmed s) (ingredients r)
  /\ Forall trimmed (instructions r)
  /\ Forall trimmed (categories r).
Proof.
  intros r. unfold r, recipe_of_soup. cbv zeta.
  cbn [title description rating prep_time cook_time total_time
       ingredients instructions categories].
  repeat (split; [apply safe_get_trimmed|]).
  split; [|split].
  - unfold extract_ingredients. apply Forall_forall.
    intros s [Hs Hne]%list_elem_of_In%filter_In.
    split; [by destruct s|].
    apply list_elem_of_In in Hs.
    pose proof (map_get_text_strip_trimmed
                  (Soup.select
                     [Soup.tag_class "ul" "recipe-ingredients__list";
                      Soup.tag_ "li"] soup)) as Hall.
    rewrite Forall_forall in Hall. by apply Hall.
  - unfold extract_steps, primary_steps, fallback_steps.
    destruct (map Soup.get_text_strip
                (Soup.select _ soup)) eqn:E.
    + apply map_get_text_strip_trimmed.
    + rewrite <- E. apply map_get_text_strip_trimmed.
  - apply map_get_text_strip_trimmed.
Qed.

(** ** Image of a record *)

(** What a selector that ends in a plain tag selects are tags of that
    name. *)
Lemma select_one_last_tag (pre : list Soup.compound) (name : string)
    (k : option string) (soup : Soup.soup) (x : Soup.node) :
  Soup.select_one (pre ++ [Soup.Compound name k None]) soup = Some x ->
  x ∈ Soup.find_all name soup.
Proof.
  unfold Soup.select_one, Soup.select, Soup.find_all.
  intros H%head_Some_elem_of.
  apply list_elem_of_fmap in H as ([anc y] & -> & Hy).
  apply list_elem_of_In, filter_In in Hy as [Hy Hsel].
  apply list_elem_of_In, filter_In. split.
  - apply list_elem_of_In in Hy. apply list_elem_of_In.
    by apply (list_elem_of_fmap_2 snd) in Hy.
  - unfold Soup.selected in Hsel. rewrite rev_app_distr in Hsel.
    simpl in Hsel. unfold Soup.matches in Hsel. simpl in Hsel.
    by apply andb_true_iff in Hsel as [[[? _]%andb_true_iff _]%andb_true_iff
                                       _].
Qed.

Lemma find_image_is_img (soup : Soup.soup) (img : Soup.node) :
  find_image soup = Some img -> img ∈ Soup.find_all "img" soup.
Proof.
  unfold find_image.
  destruct (Soup.select_one [Soup.tag_class "div" "recipe-image";
                             Soup.tag_ "img"] soup) as [x|] eqn:E1.
  { intros [= <-].
    by apply (select_one_last_tag [Soup.tag_class "div" "recipe-image"]
                "img" None). }
  destruct (Soup.select_one [Soup.tag_class "img" "primary-image"] soup)
    as [x|] eqn:E2.
  { intros [= <-].
    by apply (select_one_last_tag [] "img" (Some "primary-image")). }
  unfold Soup.find. apply head_Some_elem_of.
Qed.

(** X16: the image of a record is the sentinel [N/A] or the [src] of an
    [img] element of the page, and a page without [img] element gets the
    sentinel.  The first candidate that exists decides alone: when an
    [img] under [div.recipe-image] exists, the answer is its [src], or the
    sentinel when it has none, whatever other images the page holds. *)
Theorem image_url_comes_from_an_img (soup : Soup.soup) :
  (extract_image_url soup = "N/A"
   \/ exists img, img ∈ Soup.find_all "img" soup
                  /\ Soup.get img "src" = Some (extract_image_url soup))
  /\ (Soup.find_all "img" soup = [] -> extract_image_url soup = "N/A")
  /\ (forall img,
        Soup.select_one [Soup.tag_class "div" "recipe-image";
                         Soup.tag_ "img"] soup = Some img ->
        extract_image_url soup = default "N/A" (Soup.get img "src")).
Proof.
  unfold extract_image_url. split; [|split].
  - destruct (find_image soup) as [img|] eqn:E; [|by left].
    destruct (Soup.get img "src") as [src|] eqn:Es; [|by left].
    right. exists img. split; [by apply find_image_is_img|done].
  - intros Hnone. destruct (find_image soup) as [img|] eqn:E; [|done].
    apply find_image_is_img in E. rewrite Hnone in E.
    by apply elem_of_nil in E.
  - intros img H. unfold find_image. rewrite H.
    by destruct (Soup.get img "src").
Qed.

Example image_first_candidate_without_src :
  extract_image_url
    [Soup.Tag "div" ["recipe-image"] ∅ [Soup.Tag "img" [] ∅ []];
     Soup.Tag "img" ["primary-image"] {["src" := "https://x/a.jpg"]} []]
  = "N/A".
Proof. by vm_compute. Qed.

(** ** More on the batch *)

(** A page that fails to load ends the loop with the browser's exception,
    after the pages before it were visited. *)
Lemma scrape_loop_fails parse_html page_source (limit idx : Z)
    (pre : list string) (page : string) (post : list string)
    (recs acc : list recipe) (e : exn) (w : world) :
  Forall2 (extracted parse_html page_source) pre recs ->
  page_source page = Raised e ->
  scrape_loop parse_html page_source limit idx (pre ++ page :: post) acc w
  = (Raised e,
     after w (scrape_events limit idx pre
              ++ [Progress (idx + PyList.len pre) limit page;
                  Navigate page])).
Proof.
  intros H Hpage. revert idx acc w.
  induction H as [|p r pre recs (source & Hsrc & ->) _ IH];
    intros idx acc w.
  - cbn [app scrape_loop scrape_events]. unfold bind at 1. simpl.
    unfold bind at 1, extract_recipe_data, bind, emit, lift, ret. simpl.
    rewrite Hpage. unfold after, PyList.len. simpl.
    by rewrite Z.add_0_r, <- app_assoc.
  - cbn [app scrape_loop scrape_events]. unfold bind at 1. simpl.
    unfold bind at 1, extract_recipe_data, bind, emit, lift, ret. simpl.
    rewrite Hsrc. rewrite IH. unfold after, PyList.len. simpl.
    rewrite <- !app_assoc. simpl.
    by replace (idx + 1 + Z.of_nat (length pre))
      with (idx + Z.pos (Pos.of_succ_nat (length pre))) by lia.
Qed.

(** The collector leaves files and directories alone. *)
Lemma collector_keeps_files http parse_xml (limit : Z) (w : world) :
  files (snd (extract_all_recipe_urls http parse_xml limit w)) = files w
  /\ dirs (snd (extract_all_recipe_urls http parse_xml limit w)) = dirs w.
Proof.
  unfold extract_all_recipe_urls, bind.
  pose proof (get_recipe_sitemap_links_world http parse_xml INDEX_URL w)
    as Hw.
  destruct (get_recipe_sitemap_links http parse_xml INDEX_URL w)
    as [[links|e] w1]; simpl in Hw; subst w1; [|done].
  destruct (collect_loop_world http parse_xml limit (take 3 links) []
              (after w [Request INDEX_URL])) as (visited & _ & Hw).
  destruct (collect_loop _ _ _ _ _ _) as [[acc|e] w2]; simpl in *;
    by subst w2.
Qed.

(** X17: one page that the browser fails to load aborts the whole batch
    with the browser's exception: the pages before it were all visited,
    the pages after it are not, and no file is written, so the records
    already extracted are lost. *)
Theorem batch_aborts_on_page_failure
    http parse_xml parse_html page_source
    (limit : Z) (output_path : string) (w w1 w2 : world)
    (pre : list string) (page : string) (post : list string)
    (recs : list recipe) (e : exn) :
  Os.makedirs (Os.dirname output_path) w = (Returned tt, w1) ->
  extract_all_recipe_urls http parse_xml limit w1
  = (Returned (pre ++ page :: post), w2) ->
  Forall2 (extracted parse_html page_source) pre recs ->
  page_source page = Raised e ->
  let w' :=
    after w2 (scrape_events limit 1 pre
              ++ [Progress (1 + PyList.len pre) limit page;
                  Navigate page]) in
  batch_scrape_and_save http parse_xml parse_html page_source
    limit output_path w = (Raised e, w')
  /\ files w' = files w.
Proof.
  intros Hdir Hpages Hpre Hpage w'. split.
  - unfold batch_scrape_and_save, bind. rewrite Hdir, Hpages.
    by rewrite (scrape_loop_fails _ _ _ _ _ _ _ recs _ e).
  - unfold w'. simpl.
    pose proof (collector_keeps_files http parse_xml limit w1) as [Hf _].
    rewrite Hpages in Hf. simpl in Hf. rewrite Hf.
    by apply makedirs_returned in Hdir as [? _].
Qed.

Lemma batch_aborts_on_page_failure_witness :
  batch_scrape_and_save Demo.http Demo.parse_xml Demo.parse_html
    Demo.page_source 5 "data/recipes.json" Demo.start
  = (Raised (WebDriverException "https://x/recipes/pie/"),
     after
       (snd (extract_all_recipe_urls Demo.http Demo.parse_xml 5
               (snd (Os.makedirs "data" Demo.start))))
       (scrape_events 5 1
          ["https://x/recipes/soup/"; "https://x/recipes/empty/";
           "https://x/recipes/cake/"]
        ++ [Progress
              (1 + PyList.len
                     ["https://x/recipes/soup/"; "https://x/recipes/empty/";
                      "https://x/recipes/cake/"])
              5 "https://x/recipes/pie/";
            Navigate "https://x/recipes/pie/"]))
  /\ files
       (after
          (snd (extract_all_recipe_urls Demo.http Demo.parse_xml 5
                  (snd (Os.makedirs "data" Demo.start))))
          (scrape_events 5 1
             ["https://x/recipes/soup/"; "https://x/recipes/empty/";
              "https://x/recipes/cake/"]
           ++ [Progress
                 (1 + PyList.len
                        ["https://x/recipes/soup/";
                         "https://x/recipes/empty/";
                         "https://x/recipes/cake/"])
                 5 "https://x/recipes/pie/";
               Navigate "https://x/recipes/pie/"]))
     = files Demo.start.
Proof.
  apply (batch_aborts_on_page_failure Demo.http Demo.parse_xml
           Demo.parse_html Demo.page_source 5 "data/recipes.json"
           Demo.start (snd (Os.makedirs "data" Demo.start))
           (snd (extract_all_recipe_urls Demo.http Demo.parse_xml 5
                   (snd (Os.makedirs "data" Demo.start))))
           ["https://x/recipes/soup/"; "https://x/recipes/empty/";
            "https://x/recipes/cake/"]
           "https://x/recipes/pie/"
           ["https://x/recipes/stew/"]
           [recipe_of_soup "https://x/recipes/soup/" Demo.soup_page;
            recipe_of_soup "https://x/recipes/empty/" Demo.empty_page;
            recipe_of_soup "https://x/recipes/cake/" Demo.cake_page]).
  - vm_compute. reflexivity.
  - vm_compute. reflexivity.
  - repeat constructor.
    + exists "soup". by split.
    + exists "empty". by split.
    + exists "cake". by split.
  - reflexivity.
Defined.

Lemma filter_sublist {A} (f : A -> bool) (l : list A) :
  List.filter f l `sublist_of` l.
Proof.
  induction l as [|x l IH]; [done|]. simpl.
  destruct (f x); [by apply sublist_skip|by apply sublist_cons].
Qed.

Lemma extracted_urls parse_html page_source
    (pages : list string) (recs : list recipe) :
  Forall2 (extracted parse_html page_source) pages recs ->
  map url recs = pages.
Proof.
  induction 1 as [|p r pages recs (source & _ & ->) _ IH]; [done|].
  simpl. by rewrite IH.
Qed.

Lemma collector_returned_length
    http parse_xml (limit : Z) (w w' : world) (urls : list string) :
  extract_all_recipe_urls http parse_xml limit w = (Returned urls, w') ->
  0 <= limit -> PyList.len urls <= limit.
Proof.
  unfold extract_all_recipe_urls. intros H Hlimit.
  apply bind_returned in H as (links & w1 & _ & H).
  apply bind_returned in H as (acc & w2 & _ & H).
  injection H as <- _. rewrite slice_to_positive by done.
  unfold PyList.len. rewrite length_take. lia.
Qed.

(** X18: whenever a batch writes its output, the pages of the records
    written are, in order, among the pages the collector returned, so for
    a limit that is not negative at most [limit] records are written; the
    file under the output path is replaced as a whole, and no other file
    is changed. *)
Theorem batch_output_is_bounded
    http parse_xml parse_html page_source
    (limit : Z) (output_path : string) (w w' : world) :
  batch_scrape_and_save http parse_xml parse_html page_source
    limit output_path w = (Returned tt, w') ->
  exists (pages : list string) (out : list recipe),
    (exists w1 w2,
       extract_all_recipe_urls http parse_xml limit w1
       = (Returned pages, w2))
    /\ files w' = <[output_path := out]> (files w)
    /\ map url out `sublist_of` pages
    /\ (0 <= limit -> PyList.len out <= limit).
Proof.
  unfold batch_scrape_and_save. intros H.
  apply bind_returned in H as ([] & w1 & Hdir & H).
  apply bind_returned in H as (pages & w2 & Hpages & H).
  apply bind_returned in H as (out & w3 & Hloop & H).
  apply bind_returned in H as ([] & w4 & Hdump & H).
  injection H as <-.
  apply scrape_loop_returned in Hloop as (recs & Hrecs & -> & Hf3).
  apply dump_returned in Hdump.
  apply makedirs_returned in Hdir as [Hf1 _].
  pose proof (collector_keeps_files http parse_xml limit w1) as [Hf2 _].
  rewrite Hpages in Hf2. simpl in Hf2.
  pose proof (extracted_urls _ _ _ _ Hrecs) as Hurls.
  pose proof (filter_sublist (fun r => truthy (ingredients r)) recs)
    as Hsub.
  exists pages, (List.filter (fun r => truthy (ingredients r)) recs).
  split; [by exists w1, w2|]. split; [|split].
  - simpl. by rewrite Hdump, Hf3, Hf2, Hf1.
  - rewrite <- Hurls. by apply (fmap_sublist url).
  - intros Hlimit.
    pose proof (collector_returned_length _ _ _ _ _ _ Hpages Hlimit)
      as Hlen.
    apply sublist_length in Hsub. unfold PyList.len in *.
    rewrite <- Hurls, length_map in Hlen. simpl in *. lia.
Qed.

Lemma batch_output_is_bounded_witness :
  exists (pages : list string) (out : list recipe),
    (exists w1 w2,
       extract_all_recipe_urls Demo.http Demo.parse_xml 3 w1
       = (Returned pages, w2))
    /\ files (snd (batch_scrape_and_save Demo.http Demo.parse_xml
                     Demo.parse_html Demo.page_source 3
                     "data/recipes.json" Demo.start))
       = <["data/recipes.json" := out]> (files Demo.start)
    /\ map url out `sublist_of` pages
    /\ (0 <= 3 -> PyList.len out <= 3).
Proof.
  apply (batch_output_is_bounded Demo.http Demo.parse_xml Demo.parse_html
           Demo.page_source 3 "data/recipes.json" Demo.start).
  vm_compute. reflexivity.
Defined.

(** ** The recipe explorer of the dashboard *)

Lemma explore_filter (recipes : list recipe) (search_term : string)
    (lo hi : Z) :
  Dashboard.explore recipes search_term lo hi
  = List.filter
      (fun r =>
         (negb (Soup.nonempty search_term)
          || Dashboard.match_ r search_term)
         && Dashboard.ingredient_filter r lo hi)
      recipes.
Proof.
  unfold Dashboard.explore.
  set (f := fun r : recipe => _ && _).
  assert (H : forall acc,
            fold_left (fun filtered r =>
                         if f r then filtered ++ [r] else filtered)
                      recipes acc
            = acc ++ List.filter f recipes).
  { induction recipes as [|r recipes IH]; intros acc.
    - by rewrite app_nil_r.
    - simpl. rewrite IH. destruct (f r); [|done].
      by rewrite <- app_assoc. }
  apply (H []).
Qed.

Lemma match_shown (r : recipe) (term : string) :
  Dashboard.match_ r term = true
  <-> has_substring (PyStr.lower term) (PyStr.lower (title r))
      \/ exists ingredient,
           ingredient ∈ ingredients r
           /\ has_substring (PyStr.lower term) (PyStr.lower ingredient).
Proof.
  unfold Dashboard.match_.
  destruct (PyStr.contains _ (PyStr.lower (title r))) eqn:E.
  - split; [|done]. intros _. left. by apply contains_substring.
  - apply contains_false in E. rewrite existsb_exists. split.
    + intros (i & Hi & H). right. exists i.
      split; [by apply list_elem_of_In|by apply contains_substring].
    + intros [?|(i & Hi & H)]; [done|]. exists i.
      split; [by apply list_elem_of_In|by apply contains_substring].
Qed.

(** X19: the explorer lists exactly the subsequence of the loaded records
    that pass its filters, in their order: the ingredient count lies
    within the two bounds and, unless the search term is empty, the term
    occurs in the title or in an ingredient, letter case ignored.  Two
    terms that agree once lowercased list the same records. *)
Theorem explorer_lists_matching_records (recipes : list recipe)
    (search_term : string) (lo hi : Z) :
  kept_from (Dashboard.shown search_term lo hi) recipes
            (Dashboard.explore recipes search_term lo hi)
  /\ (forall other,
        PyStr.lower other = PyStr.lower search_term ->
        Dashboard.explore recipes other lo hi
        = Dashboard.explore recipes search_term lo hi).
Proof.
  split.
  - rewrite explore_filter. apply filter_kept_from. intros r.
    unfold Dashboard.shown, Dashboard.ingredient_filter. cbv zeta.
    rewrite !andb_true_iff, orb_true_iff, negb_true_iff, match_shown.
    rewrite Z.leb_le, Z.leb_le.
    assert (Soup.nonempty search_term = false
            <-> search_term = EmptyString) as -> by by destruct search_term.
    tauto.
  - intros other H. rewrite !explore_filter.
    apply filter_ext. intros r. unfold Dashboard.match_. rewrite H.
    assert (Soup.nonempty other = Soup.nonempty search_term) as ->; [|done].
    by destruct other, search_term.
Qed.

Lemma slice_page {A} (l : list A) (k : nat) :
  Dashboard.slice l (Z.of_nat (10 * k)) (Z.of_nat (10 * k) + 10)
  = take 10 (drop (10 * k) l).
Proof.
  unfold Dashboard.slice, Dashboard.clamp, PyList.len. cbv zeta.
  assert ((Z.of_nat (10 * k) <? 0) = false) as -> by (apply Z.ltb_ge; lia).
  assert ((Z.of_nat (10 * k) + 10 <? 0) = false) as ->
    by (apply Z.ltb_ge; lia).
  destruct (decide (length l <= 10 * k)%nat) as [Hge|Hlt].
  - rewrite (drop_ge l (10 * k)) by done.
    rewrite drop_ge by lia. by rewrite !take_nil.
  - replace (Z.to_nat (Z.of_nat (10 * k) `min` Z.of_nat (length l)))
      with (10 * k)%nat by lia.
    destruct (decide (10 * k + 10 <= length l)%nat).
    + f_equal. lia.
    + rewrite !take_ge; [done| |]; rewrite length_drop; lia.
Qed.

(** Cutting a list in runs of ten and joining the runs gives it back. *)
Lemma chunks_concat {A} (m : nat) (l : list A) :
  (length l <= 10 * m)%nat ->
  concat (map (fun k => take 10 (drop (10 * k) l)) (seq 0 m)) = l.
Proof.
  revert l. induction m as [|m IH]; intros l Hlen.
  - destruct l; [done|simpl in Hlen; lia].
  - cbn [seq map concat]. rewrite <- seq_shift, map_map.
    rewrite (map_ext _ (fun k => take 10 (drop (10 * k) (drop 10 l)))).
    + rewrite IH by (rewrite length_drop; lia).
      apply take_drop.
    + intros k. rewrite drop_drop. do 2 f_equal. lia.
Qed.

Lemma total_pages_covers (filtered : list recipe) :
  (length filtered <= 10 * Z.to_nat (Dashboard.total_pages filtered))%nat
  /\ (filtered <> [] ->
      forall k, (k < Z.to_nat (Dashboard.total_pages filtered))%nat ->
                (10 * k < length filtered)%nat).
Proof.
  unfold Dashboard.total_pages, Dashboard.page_size, PyList.len.
  destruct filtered as [|r rest]; [by split; simpl; [lia|]|].
  cbn [truthy]. set (n := Z.of_nat (length (r :: rest))).
  assert (Hn : 1 <= n) by (unfold n; simpl; lia).
  pose proof (Z.mul_succ_div_gt (n - 1) 10 ltac:(lia)) as Hup.
  pose proof (Z.mul_div_le (n - 1) 10 ltac:(lia)) as Hdown.
  pose proof (Z.div_pos (n - 1) 10 ltac:(lia) ltac:(lia)) as Hpos.
  split; [lia|]. intros _ k Hk. lia.
Qed.

(** X20: the pages of the explorer partition the filtered records: read
    from page 1 to the last page they give every record once, in order;
    no page shows more than ten, and when there is a record no page is
    empty. *)
Theorem explorer_pages_partition (filtered : list recipe) :
  concat (map (Dashboard.current_recipes filtered)
              (Dashboard.page_numbers filtered)) = filtered
  /\ Forall (fun page_num =>
               (length (Dashboard.current_recipes filtered page_num)
                <= 10)%nat
               /\ (filtered <> [] ->
                   Dashboard.current_recipes filtered page_num <> []))
            (Dashboard.page_numbers filtered).
Proof.
  destruct (total_pages_covers filtered) as [Hcover Hfull].
  assert (Hpage : forall k,
            Dashboard.current_recipes filtered (Z.of_nat k + 1)
            = take 10 (drop (10 * k) filtered)).
  { intros k. unfold Dashboard.current_recipes, Dashboard.page_size.
    cbv zeta.
    replace ((Z.of_nat k + 1 - 1) * 10) with (Z.of_nat (10 * k)) by lia.
    apply slice_page. }
  unfold Dashboard.page_numbers. split.
  - rewrite map_map.
    rewrite (map_ext _ (fun k => take 10 (drop (10 * k) filtered)))
      by done.
    by apply chunks_concat.
  - apply Forall_forall. intros p (k & -> & Hk)%list_elem_of_fmap.
    apply list_elem_of_In, in_seq in Hk. rewrite Hpage. split.
    + rewrite length_take. lia.
    + intros Hne Hnil. specialize (Hfull Hne k ltac:(lia)).
      apply (f_equal length) in Hnil.
      rewrite length_take, length_drop in Hnil. cbn [length] in Hnil.
      lia.
Qed.

Example explorer_pages_of_23 :
  map (fun page => length (Dashboard.current_recipes
                             (replicate 23
                                (recipe_of_soup "p" Demo.cake_page)) page))
      (Dashboard.page_numbers
         (replicate 23 (recipe_of_soup "p" Demo.cake_page)))
  = [10; 10; 3]%nat.
Proof. by vm_compute. Qed.

(** ** Directories *)

(** A regular file above the directory, or in its place, stops
    [makedirs]; an existing directory does not. *)
Example makedirs_below_a_file :
  fst (Os.makedirs "data/out" (World [] ∅ {["data" := []]}))
  = Raised NotADirectoryError
  /\ fst (Os.makedirs "data" (World [] ∅ {["data" := []]}))
     = Raised (FileExistsError "data")
  /\ fst (Os.makedirs "data" (World [] {["data"]} ∅)) = Returned tt.
Proof. by vm_compute. Qed.
